(** * vps-bot: resource lifecycle and scheduling core of [bot.py]

    A shallow embedding of the state-carrying part of the bot: the four
    JSON documents kept in memory ([VPS_DATA], [USER_DB], [GIVEAWAYS] and
    the purge-protection file), the registry helpers that mutate them, the
    deadline coroutines and the three resolution routines.

    Conventions.
    - Python [int] is [Z]; a [dict] keyed by strings is a [gmap string _].
    - Strings are Rocq [string]s, that is, keys and ids are taken to be
      ASCII; [str.isdigit] and [int(str)] are modelled on ASCII decimals.
    - Every handler is written in state-passing style over [state]; the
      calls to [save_*] are recorded in the [disk] log, most recent first,
      and [asyncio.create_task] appends to [tasks].
    - A handler body between two [await]s runs without interleaving (one
      cooperative event loop), so each handler is a function on [state];
      what the chat platform returns (fetched messages, reactors, the
      random draw) is passed in as an argument.
    - A call that raises outside every [try] ends the handler where it
      stands; the one such call modelled is [flatten] on the reactors of
      a message, which the 2.x line of the chat library no longer has. *)

From Stdlib Require Import ZArith String Ascii List Sorted Lia.
From Stdlib Require Import DecimalString DecimalPos DecimalZ.
From stdpp Require Import base gmap strings list fin_maps.

Local Open Scope string_scope.
Local Open Scope list_scope.
Local Open Scope Z_scope.

(** ** Python string helpers *)

Module PyStr.

(** One ASCII decimal digit. *)
Definition is_digit_char (c : ascii) : bool :=
  match DecimalString.uint_of_char c (Some Decimal.Nil) with
  | Some _ => true
  | None => false
  end.

Fixpoint all_digits (s : string) : bool :=
  match s with
  | EmptyString => true
  | String c s' => is_digit_char c && all_digits s'
  end.

(** [x.isdigit()]: non-empty and made of digits only. *)
Definition isdigit (s : string) : bool :=
  match s with
  | EmptyString => false
  | String _ _ => all_digits s
  end.

(** [int(x)] for a string of decimal digits; [None] is [ValueError]. *)
Definition int_of_digits (s : string) : option Z :=
  match s with
  | EmptyString => None
  | String _ _ =>
      match NilEmpty.uint_of_string s with
      | Some d => Some (Z.of_uint d)
      | None => None
      end
  end.

(** [int(x)] where the source has already tested [x.isdigit()]. *)
Definition int (s : string) : Z := default 0 (int_of_digits s).

(** [str(n)] on an integer. *)
Definition str (n : Z) : string := NilEmpty.string_of_int (Z.to_int n).

(** ASCII [lower()], enough to compare against a lower-case literal. *)
Definition lower_char (c : ascii) : ascii :=
  let n := nat_of_ascii c in
  if (Nat.leb 65 n && Nat.leb n 90)%bool then ascii_of_nat (n + 32) else c.

Fixpoint lower (s : string) : string :=
  match s with
  | EmptyString => EmptyString
  | String c s' => String (lower_char c) (lower s')
  end.

End PyStr.

(** ** Data model *)

(** One entry of [USER_DB["users"]]. *)
Record user_rec := mk_user {
  credits : Z;
  trial_claimed : bool;
  trial_active : bool;
  is_admin : bool;
  last_daily : option Z;
  last_weekly : option Z
}.

(** One entry of [VPS_DATA["vps"]]. *)
Record vps_rec := mk_vps {
  vps_id : string;
  vps_owner : string;
  vps_ram : Z;
  vps_cpu : Z;
  vps_storage : Z;
  vps_status : string;
  vps_shared_with : list string;
  vps_created_at : string;
  vps_trial_expires : option Z
}.

(** [VPS_DATA["purge"]]. *)
Record purge_rec := mk_purge {
  purge_active : bool;
  protected_vps : list string;
  protected_users : list string;
  purge_message_id : option Z;
  purge_channel_id : option Z;
  purge_start_ts : option Z;
  purge_end_ts : option Z
}.

(** One entry of [GIVEAWAYS["giveaways"]]. *)
Record giveaway_rec := mk_giveaway {
  gw_message_id : Z;
  gw_channel_id : Z;
  gw_end_ts : Z;
  gw_amount : Z;
  gw_host_id : Z;
  gw_created_at : Z
}.

(** One entry of the list in [purge_protected.json]. *)
Record protection_rec := mk_protection {
  prot_user_id : string;
  prot_emoji : string;
  prot_protected_at : Z;
  prot_expires_at : Z
}.

(** The documents written by the [save_*] functions. *)
Inductive doc := VpsDoc | UserDoc | GiveawayDoc | ProtectedDoc.

(** Coroutines handed to [asyncio.create_task] by the lifecycle code. *)
Inductive task :=
  | ScheduleTrialExpiry (vid : string) (end_ts : Z)
  | FinalizeGiveawayById (gid : string)
  | SchedulePurgeExpiry (end_ts : Z) (requested_by : Z).

(** What [datetime.now(timezone.utc)] gives: the integer Unix time used for
    deadlines and the ISO text stored in [created_at]. *)
Record clock := mk_clock { unix : Z; iso : string }.

(** [config.json], as far as the lifecycle code reads it. *)
Record config := mk_config { trial_credits : Z }.

Record state := mk_state {
  vps : gmap string vps_rec;
  purge : purge_rec;
  users : gmap string user_rec;
  giveaways : gmap string giveaway_rec;
  protected : list protection_rec;
  disk : list doc;
  tasks : list task
}.

(** *** Field updates *)

Definition with_vps (f : gmap string vps_rec → gmap string vps_rec) (s : state) : state :=
  mk_state (f (vps s)) (purge s) (users s) (giveaways s) (protected s) (disk s) (tasks s).

Definition with_purge (f : purge_rec → purge_rec) (s : state) : state :=
  mk_state (vps s) (f (purge s)) (users s) (giveaways s) (protected s) (disk s) (tasks s).

Definition with_users (f : gmap string user_rec → gmap string user_rec) (s : state) : state :=
  mk_state (vps s) (purge s) (f (users s)) (giveaways s) (protected s) (disk s) (tasks s).

Definition with_giveaways (f : gmap string giveaway_rec → gmap string giveaway_rec)
    (s : state) : state :=
  mk_state (vps s) (purge s) (users s) (f (giveaways s)) (protected s) (disk s) (tasks s).

Definition with_protected (f : list protection_rec → list protection_rec) (s : state) : state :=
  mk_state (vps s) (purge s) (users s) (giveaways s) (f (protected s)) (disk s) (tasks s).

(** A [save_*] call: a full rewrite of one document. *)
Definition save (d : doc) (s : state) : state :=
  mk_state (vps s) (purge s) (users s) (giveaways s) (protected s) (d :: disk s) (tasks s).

(** [asyncio.create_task(t)]. *)
Definition create_task (t : task) (s : state) : state :=
  mk_state (vps s) (purge s) (users s) (giveaways s) (protected s) (disk s) (tasks s ++ [t]).

Definition save_vps_data : state → state := save VpsDoc.
Definition save_user_db : state → state := save UserDoc.
Definition save_giveaways : state → state := save GiveawayDoc.
Definition save_purge_protected (l : list protection_rec) (s : state) : state :=
  save ProtectedDoc (with_protected (λ _, l) s).

Definition set_credits (c : Z) (u : user_rec) : user_rec :=
  mk_user c (trial_claimed u) (trial_active u) (is_admin u) (last_daily u) (last_weekly u).
Definition set_trial_claimed (b : bool) (u : user_rec) : user_rec :=
  mk_user (credits u) b (trial_active u) (is_admin u) (last_daily u) (last_weekly u).
Definition set_trial_active (b : bool) (u : user_rec) : user_rec :=
  mk_user (credits u) (trial_claimed u) b (is_admin u) (last_daily u) (last_weekly u).

Definition set_status (st : string) (v : vps_rec) : vps_rec :=
  mk_vps (vps_id v) (vps_owner v) (vps_ram v) (vps_cpu v) (vps_storage v) st
         (vps_shared_with v) (vps_created_at v) (vps_trial_expires v).
Definition set_trial_expires (e : Z) (v : vps_rec) : vps_rec :=
  mk_vps (vps_id v) (vps_owner v) (vps_ram v) (vps_cpu v) (vps_storage v) (vps_status v)
         (vps_shared_with v) (vps_created_at v) (Some e).

Definition set_active (b : bool) (p : purge_rec) : purge_rec :=
  mk_purge b (protected_vps p) (protected_users p) (purge_message_id p)
           (purge_channel_id p) (purge_start_ts p) (purge_end_ts p).
Definition set_message (mid cid : Z) (p : purge_rec) : purge_rec :=
  mk_purge (purge_active p) (protected_vps p) (protected_users p) (Some mid)
           (Some cid) (purge_start_ts p) (purge_end_ts p).
Definition set_window (t0 t1 : Z) (p : purge_rec) : purge_rec :=
  mk_purge (purge_active p) (protected_vps p) (protected_users p) (purge_message_id p)
           (purge_channel_id p) (Some t0) (Some t1).

(** ** Lifecycle registry *)

(** The record [ensure_user_record] inserts on first reference. *)
Definition new_user : user_rec := mk_user 0 false false false None None.

Definition ensure_user_record (user_id : string) (s : state) : state :=
  match users s !! user_id with
  | Some _ => s
  | None => save_user_db (with_users (insert user_id new_user) s)
  end.

(** [USER_DB["users"][uid].get("credits", 0)]. *)
Definition credits_of (s : state) (uid : string) : Z :=
  match users s !! uid with
  | Some u => credits u
  | None => 0
  end.

(** [USER_DB["users"][uid][field] = ...] after [ensure_user_record(uid)]. *)
Definition update_user (uid : string) (f : user_rec → user_rec) (s : state) : state :=
  with_users (alter f uid) s.

(** The numeric keys of the resource map: [[int(x) for x in keys if x.isdigit()]]. *)
Definition vps_nums (m : gmap string vps_rec) : list Z :=
  PyStr.int <$> filter (λ k, PyStr.isdigit k = true) (map_to_list m).*1.

(** [max] of a non-empty list. *)
Definition py_max (n : Z) (ns : list Z) : Z := foldr Z.max n ns.

Definition get_next_vps_id (s : state) : string :=
  if decide (vps s = ∅) then "1"
  else match vps_nums (vps s) with
       | [] => "1"
       | n :: ns => PyStr.str (py_max n ns + 1)
       end.

(** [create_vps_record(owner_id, ram, cpu, storage)]; the provisioning
    tasks it may start only touch free-form metadata and are left out. *)
Definition create_vps_record (now : clock) (owner_id : string) (ram cpu storage : Z)
    (s : state) : state * string :=
  let vid := get_next_vps_id s in
  let rec := mk_vps vid owner_id ram cpu storage "active" [] (iso now) None in
  (save_vps_data (with_vps (insert vid rec) s), vid).

(** ** Trial claims *)

Inductive trial_reply :=
  | AlreadyClaimed
  | PromptSelfClaim
  | PromptGrant (target : string).

(** The [.trial] command. With a mentioned member and the owner as author
    it only posts the grant prompt; otherwise it is the self-claim flow,
    which refuses an account that has claimed before and else posts the
    confirmation prompt. *)
Definition trial (author_is_owner : bool) (member : option string) (uid : string)
    (s : state) : state * trial_reply :=
  match author_is_owner, member with
  | true, Some target => (s, PromptGrant target)
  | _, _ =>
      let s := ensure_user_record uid s in
      match users s !! uid with
      | Some u => if trial_claimed u then (s, AlreadyClaimed) else (s, PromptSelfClaim)
      | None => (s, PromptSelfClaim)
      end
  end.

(** [ConfirmSelfClaim.claim], the button under the self-claim prompt, for
    the requester [uid2] (another presser is turned away by the view). *)
Definition ConfirmSelfClaim_claim (cfg : config) (now : clock) (uid2 : string)
    (s : state) : state * string :=
  let s := ensure_user_record uid2 s in
  let s := update_user uid2 (set_trial_claimed true) s in
  let s := update_user uid2 (set_trial_active true) s in
  let '(s, vid) := create_vps_record now uid2 2 1 20 s in
  let end_ts := unix now + 3 * 24 * 3600 in
  let s := with_vps (alter (set_trial_expires end_ts) vid) s in
  let s := with_vps (alter (set_status "trial") vid) s in
  let tc := trial_credits cfg in
  let s := if decide (tc = 0) then s
           else update_user uid2 (set_credits (credits_of s uid2 + tc)) s in
  let s := save_vps_data s in
  let s := save_user_db s in
  let s := create_task (ScheduleTrialExpiry vid end_ts) s in
  (s, vid).

(** [ConfirmTrialView.confirm], the button under the owner's grant prompt. *)
Definition ConfirmTrialView_confirm (cfg : config) (now : clock) (uid : string)
    (s : state) : state * option string :=
  let s := ensure_user_record uid s in
  if match users s !! uid with Some u => trial_claimed u | None => false end
  then (s, None)
  else
    let '(s, vid) := create_vps_record now uid 2 1 20 s in
    let end_ts := unix now + 3 * 24 * 3600 in
    let s := with_vps (alter (set_trial_expires end_ts) vid) s in
    let s := with_vps (alter (set_status "trial") vid) s in
    let s := update_user uid (set_trial_claimed true) s in
    let s := update_user uid (set_trial_active true) s in
    let tc := trial_credits cfg in
    let s := if decide (tc = 0) then s
             else update_user uid (set_credits (credits_of s uid + tc)) s in
    let s := save_vps_data s in
    let s := save_user_db s in
    let s := create_task (ScheduleTrialExpiry vid end_ts) s in
    (s, Some vid).

(** ** Resolution routines *)

(** [finalize_trial_vps(vid)]. The role refresh and the direct message are
    sent to the chat platform and leave the documents alone. *)
Definition finalize_trial_vps (vid : string) (s : state) : state :=
  match vps s !! vid with
  | None => s
  | Some v =>
      let owner := vps_owner v in
      let s := with_vps (delete vid) s in
      let s := save_vps_data s in
      if decide (owner = "") then s
      else
        let s := ensure_user_record owner s in
        let s := update_user owner (set_trial_active false) s in
        save_user_db s
  end.

(** A user as the chat platform reports it under a reaction. *)
Record member := mk_member { member_id : Z; member_bot : bool }.

Record reaction := mk_reaction { react_emoji : string; react_users : list member }.

(** The party-popper emoji, as its UTF-8 bytes. *)
Definition PARTY : string :=
  String (ascii_of_nat 240) (String (ascii_of_nat 159)
    (String (ascii_of_nat 142) (String (ascii_of_nat 137) EmptyString))).

(** The loop over [msg.reactions] stops at the first reaction that carries
    the party emoji. *)
Fixpoint party_reaction (rs : list reaction) : option reaction :=
  match rs with
  | [] => None
  | r :: rs' => if decide (react_emoji r = PARTY) then Some r else party_reaction rs'
  end.

(** [await react.users().flatten()]. The iterator that [react.users()]
    returns has a [flatten] method in the 1.x line of the chat library only;
    it was removed in 2.0, the line whose [ui] module, interaction callbacks
    and [message_content] intent the file is written against. [has_flatten]
    says which library is loaded; without the method the call raises
    ([None]). *)
Definition users_flatten (has_flatten : bool) (r : reaction) : option (list member) :=
  if has_flatten then Some (react_users r) else None.

(** The participants the loop computes: the non-bot users of the party
    reaction, none when no reaction carries the emoji, [None] when
    [flatten] raises. *)
Definition participants_of (has_flatten : bool) (reactions : list reaction)
    : option (list member) :=
  match party_reaction reactions with
  | Some react =>
      match users_flatten has_flatten react with
      | Some users => Some (filter (λ u, member_bot u = false) users)
      | None => None
      end
  | None => Some []
  end.

(** [random.choice(l)] with the draw [rnd] made explicit. *)
Definition random_choice {A} (rnd : nat) (l : list A) : option A :=
  l !! (rnd mod length l)%nat.

(** How a run of the finalizer ends: by an exception that leaves the
    routine, or by returning, with the winner it drew if any. *)
Inductive finalize_outcome :=
  | Raised
  | Finished (winner : option member).

(** [finalize_giveaway_by_id(gid)]. [fetched] is what fetching the rallying
    message gives ([None] when the fetch raises, which the routine catches),
    [rnd] the random draw. The [flatten] call stands outside every [try]:
    when it raises the routine is left at once, with the documents as it
    found them. *)
Definition finalize_giveaway_by_id (has_flatten : bool) (gid : string)
    (fetched : option (list reaction)) (rnd : nat) (s : state)
    : state * finalize_outcome :=
  match giveaways s !! gid with
  | None => (s, Finished None)
  | Some gw =>
      let amount := gw_amount gw in
      match fetched with
      | None => (save_giveaways (with_giveaways (delete gid) s), Finished None)
      | Some reactions =>
          match participants_of has_flatten reactions with
          | None => (s, Raised)
          | Some participants =>
              let count := length participants in
              let '(s, winner) :=
                if decide (0 < count)%nat then
                  match random_choice rnd participants with
                  | Some w =>
                      let uid := PyStr.str (member_id w) in
                      let s := ensure_user_record uid s in
                      let s := update_user uid
                                 (set_credits (credits_of s uid + amount)) s in
                      (save_user_db s, Some w)
                  | None => (s, None)
                  end
                else (s, None) in
              (save_giveaways (with_giveaways (delete gid) s), Finished winner)
          end
      end
  end.

(** ** Purge *)

(** The sweep loop shared by both purge paths: walk a snapshot of the
    resource map, pop every record [keep] does not cover and collect its id. *)
Definition sweep (keep : string → vps_rec → bool) (s : state) : state * list string :=
  foldl (λ (acc : state * list string) (kv : string * vps_rec),
           if keep kv.1 kv.2 then acc
           else (with_vps (delete kv.1) acc.1, (acc.2 ++ [kv.1])%list))
        (s, []) (map_to_list (vps s)).

(** The test of the sweep inside [purge_start]. *)
Definition keep_at_start (p : purge_rec) (vid : string) (info : vps_rec) : bool :=
  bool_decide (vid ∈ protected_vps p) || bool_decide (vps_owner info ∈ protected_users p).

(** [purge_start], the [.purgestart] command. [msg_id] and [channel_id]
    identify the announcement the chat platform posted. Returns the ids
    it removed. *)
Definition purge_start (author_is_owner : bool) (author msg_id channel_id : Z)
    (now : clock) (s : state) : state * list string :=
  if negb author_is_owner then (s, [])
  else
    let s := with_purge (set_active true) s in
    let s := save_vps_data s in
    let s := with_purge (set_message msg_id channel_id) s in
    let s := save_vps_data s in
    let end_ts := unix now + 72 * 3600 in
    let s := with_purge (set_window (unix now) end_ts) s in
    let s := save_vps_data s in
    let s := create_task (SchedulePurgeExpiry end_ts author) s in
    let '(s, removed) := sweep (keep_at_start (purge s)) s in
    let s := save_vps_data s in
    let s := with_purge (set_active false) s in
    let s := save_vps_data s in
    (s, removed).

(** The accounts holding a protection record that has not expired at [now]. *)
Definition protected_user_ids (now : Z) (records : list protection_rec) : list string :=
  prot_user_id <$> filter (λ r, now ≤ prot_expires_at r) records.

(** The test of the sweep inside [execute_scheduled_purge]. *)
Definition keep_at_end (p : purge_rec) (ids : list string) (vid : string)
    (info : vps_rec) : bool :=
  bool_decide (vid ∈ protected_vps p)
  || bool_decide (vps_owner info ∈ protected_users p)
  || bool_decide (vps_owner info ∈ ids).

(** [execute_scheduled_purge(requested_by)], run at the end of the window. *)
Definition execute_scheduled_purge (requested_by : Z) (now : clock)
    (s : state) : state * list string :=
  let ids := protected_user_ids (unix now) (protected s) in
  let '(s, removed) := sweep (keep_at_end (purge s) ids) s in
  (save_vps_data s, removed).

(** [on_raw_reaction_add]: a reaction on the purge announcement by anyone
    but the bot replaces that account's protection record. *)
Definition on_raw_reaction_add (message_id user_id bot_id : Z) (emoji : string)
    (now : clock) (s : state) : state :=
  match purge_message_id (purge s), purge_channel_id (purge s) with
  | Some msg_id, Some ch_id =>
      if decide (msg_id = 0 ∨ ch_id = 0) then s
      else if decide (message_id ≠ msg_id) then s
      else if decide (user_id = bot_id) then s
      else
        let rec := mk_protection (PyStr.str user_id) emoji (unix now)
                                 (unix now + 72 * 3600) in
        let lst := filter (λ r, prot_user_id r ≠ PyStr.str user_id) (protected s) in
        save_purge_protected (lst ++ [rec])%list s
  | _, _ => s
  end.

(** [isProtected] of the specification, for comparison with the two sweeps. *)
Definition isProtected (now : Z) (s : state) (vid : string) (info : vps_rec) : Prop :=
  vid ∈ protected_vps (purge s)
  ∨ vps_owner info ∈ protected_users (purge s)
  ∨ ∃ r, r ∈ protected s ∧ prot_user_id r = vps_owner info ∧ now ≤ prot_expires_at r.

(** ** Deadline coroutines *)

(** The routine a coroutine ends up calling. *)
Inductive resolver :=
  | FinalizeTrialVps (vid : string)
  | FinalizeGiveaway (gid : string)
  | ExecuteScheduledPurge (requested_by : Z).

(** A resolver call together with the clock reading at which it is made. *)
Record firing := mk_firing { fires_at : Z; call : resolver }.

(** [await asyncio.sleep(wait)] entered at time [t]: control comes back
    after at least [wait] seconds; [lag] is whatever the event loop adds. *)
Definition asyncio_sleep (wait : Z) (lag : N) (t : Z) : Z :=
  t + Z.max 0 wait + Z.of_N lag.

(** [schedule_trial_expiry(vid, end_ts)], started at time [t]. *)
Definition schedule_trial_expiry (vid : string) (end_ts : Z) (lag : N) (t : Z) : firing :=
  let now := t in
  let wait := Z.max 0 (end_ts - now) in
  let t := asyncio_sleep wait lag t in
  mk_firing t (FinalizeTrialVps vid).

(** [schedule_purge_expiry(end_ts, channel_id, message_id, requested_by)],
    started at time [t]. *)
Definition schedule_purge_expiry (end_ts requested_by : Z) (lag : N) (t : Z) : firing :=
  let now := t in
  let wait := Z.max 0 (end_ts - now) in
  let t := asyncio_sleep wait lag t in
  mk_firing t (ExecuteScheduledPurge requested_by).

(** What the event loop does with a task it starts at time [t]. A task made
    of [finalize_giveaway_by_id(gid)] is the resolver itself: its body
    starts with the lookup of the record, there is no sleep in front. *)
Definition run_task (tk : task) (lag : N) (t : Z) : firing :=
  match tk with
  | ScheduleTrialExpiry vid end_ts => schedule_trial_expiry vid end_ts lag t
  | FinalizeGiveawayById gid => mk_firing t (FinalizeGiveaway gid)
  | SchedulePurgeExpiry end_ts requested_by =>
      schedule_purge_expiry end_ts requested_by lag t
  end.

(** The deadline the store records for the entity a task resolves. *)
Definition deadline_of (s : state) (tk : task) : option Z :=
  match tk with
  | ScheduleTrialExpiry _ end_ts => Some end_ts
  | FinalizeGiveawayById gid => gw_end_ts <$> giveaways s !! gid
  | SchedulePurgeExpiry end_ts _ => Some end_ts
  end.

(** [on_ready]: the startup pass that re-arms what the documents hold. *)
Definition on_ready (s : state) : state :=
  let s := foldl (λ (s : state) (kv : string * giveaway_rec),
                    create_task (FinalizeGiveawayById kv.1) s)
                 s (map_to_list (giveaways s)) in
  foldl (λ (s : state) (kv : string * vps_rec),
           match vps_trial_expires kv.2 with
           | Some end_ts =>
               if decide (end_ts = 0) then s
               else create_task (ScheduleTrialExpiry kv.1 end_ts) s
           | None => s
           end)
        s (map_to_list (vps s)).

(** [giveaway_credits], the [.giveawayc] command; [secs] is what
    [parse_duration] made of the duration argument and [msg_id] the id of
    the rallying message the chat platform posted. *)
Definition giveaway_credits (author_is_owner : bool) (author channel_id amount secs
    msg_id : Z) (now : clock) (s : state) : state :=
  if negb author_is_owner then s
  else if decide (secs ≤ 0) then s
  else
    let end_ts := unix now + secs in
    let gid := PyStr.str msg_id in
    let gw := mk_giveaway msg_id channel_id end_ts amount author (unix now) in
    let s := with_giveaways (insert gid gw) s in
    let s := save_giveaways s in
    create_task (FinalizeGiveawayById gid) s.

(** ** Credits *)

Inductive credit_reply :=
  | OwnerOnly
  | NotANumber
  | MustBePositive
  | InsufficientBalance
  | Done.

(** [admin_add_credits], the [.adminc] command. *)
Definition admin_add_credits (author_is_owner : bool) (uid : string) (amount : Z)
    (s : state) : state * credit_reply :=
  if negb author_is_owner then (s, OwnerOnly)
  else
    let s := ensure_user_record uid s in
    let s := update_user uid (set_credits (credits_of s uid + amount)) s in
    (save_user_db s, Done).

Section RemoveCredits.

(** Python's built-in [int] on a command argument; [None] is [ValueError]. *)
Variable py_int : string → option Z.

(** [admin_remove_credits], the [.adminrc] command. *)
Definition admin_remove_credits (author_is_owner : bool) (uid : string)
    (amount : string) (s : state) : state * credit_reply :=
  if negb author_is_owner then (s, OwnerOnly)
  else
    let s := ensure_user_record uid s in
    if decide (PyStr.lower amount = "all") then
      let s := update_user uid (set_credits 0) s in
      (save_user_db s, Done)
    else
      match py_int amount with
      | Some a =>
          let s := update_user uid (set_credits (Z.max 0 (credits_of s uid - a))) s in
          (save_user_db s, Done)
      | None => (s, NotANumber)
      end.

End RemoveCredits.

(** A reading of [int] that covers signed ASCII decimals. *)
Definition int_signed (s : string) : option Z :=
  match s with
  | String "-" s' => Z.opp <$> PyStr.int_of_digits s'
  | String "+" s' => PyStr.int_of_digits s'
  | _ => PyStr.int_of_digits s
  end.

(** [adjustCredits] as the specification words it: a change that would
    leave the balance negative is refused and nothing changes. *)
Definition adjustCredits_spec (uid : string) (delta : Z) (s : state) : state * credit_reply :=
  if decide (credits_of s uid + delta < 0) then (s, InsufficientBalance)
  else
    let s := ensure_user_record uid s in
    (save_user_db (update_user uid (set_credits (credits_of s uid + delta)) s), Done).

(** [transfer], the [.transfer] command, from the author [uid] to [tid]. *)
Definition transfer (uid tid : string) (amount : Z) (s : state) : state * credit_reply :=
  if decide (amount ≤ 0) then (s, MustBePositive)
  else
    let s := ensure_user_record uid s in
    let s := ensure_user_record tid s in
    if decide (credits_of s uid < amount) then (s, InsufficientBalance)
    else
      let s := update_user uid (set_credits (credits_of s uid - amount)) s in
      let s := update_user tid (set_credits (credits_of s tid + amount)) s in
      (save_user_db s, Done).

(** The sum of all balances in [USER_DB]. *)
Definition sum_credits (m : gmap string user_rec) : Z :=
  map_fold (λ (_ : string) (u : user_rec) (acc : Z), credits u + acc) 0 m.

Definition total_credits (s : state) : Z := sum_credits (users s).

(** ** The bot as an event loop *)

(** The documents as [ensure_files] writes them on a first start. *)
Definition fresh_purge : purge_rec := mk_purge false [] [] None None None None.

Definition fresh_state : state := mk_state ∅ fresh_purge ∅ ∅ [] [] [].

(** The running bot: the documents and the confirmation prompts that are
    still on screen (one entry per posted [ConfirmSelfClaim] view, holding
    its requester). *)
Record bot := mk_bot { store : state; prompts : list string }.

(** What can happen to the trial part of the bot. *)
Inductive event :=
  | CmdTrial (uid : string)
  | PressClaim (uid : string) (now : clock)
  | GrantTrial (uid : string) (now : clock)
  | TrialDeadline (vid : string).

(** Remove the first occurrence of [x] (the pressed prompt goes away). *)
Fixpoint remove_first (x : string) (l : list string) : list string :=
  match l with
  | [] => []
  | y :: l' => if decide (x = y) then l' else y :: remove_first x l'
  end.

(** Is some [schedule_trial_expiry(vid, _)] task armed? *)
Definition armed_trial (vid : string) (l : list task) : bool :=
  existsb (λ t, match t with
                | ScheduleTrialExpiry v _ => bool_decide (v = vid)
                | _ => false
                end) l.

(** One event. [None] when the event cannot occur: a button needs its
    prompt on screen, a deadline needs a task armed for that resource. *)
Definition dispatch (cfg : config) (e : event) (b : bot) : option bot :=
  match e with
  | CmdTrial uid =>
      let '(s, r) := trial false None uid (store b) in
      match r with
      | PromptSelfClaim => Some (mk_bot s (prompts b ++ [uid]))
      | _ => Some (mk_bot s (prompts b))
      end
  | PressClaim uid now =>
      if decide (uid ∈ prompts b) then
        Some (mk_bot (ConfirmSelfClaim_claim cfg now uid (store b)).1
                     (remove_first uid (prompts b)))
      else None
  | GrantTrial uid now =>
      Some (mk_bot (ConfirmTrialView_confirm cfg now uid (store b)).1 (prompts b))
  | TrialDeadline vid =>
      if armed_trial vid (tasks (store b)) then
        Some (mk_bot (finalize_trial_vps vid (store b)) (prompts b))
      else None
  end.

Fixpoint run (cfg : config) (es : list event) (b : bot) : option bot :=
  match es with
  | [] => Some b
  | e :: es' =>
      match dispatch cfg e b with
      | Some b' => run cfg es' b'
      | None => None
      end
  end.

(** The states the bot can be in after a first start. *)
Definition reachable (cfg : config) (s : state) : Prop :=
  ∃ es b, run cfg es (mk_bot fresh_state []) = Some b ∧ store b = s.

(** The trial invariant of the data model. *)
Definition trial_invariant (s : state) : Prop :=
  ∀ vid v, vps s !! vid = Some v → vps_status v = "trial" →
    vps_trial_expires v ≠ None ∧
    ∃ u, users s !! vps_owner v = Some u ∧ trial_active u = true.

(** A run of [create_vps_record] calls, one per request, collecting the
    ids handed out. *)
Record create_req := mk_req {
  req_now : clock; req_owner : string; req_ram : Z; req_cpu : Z; req_storage : Z
}.

Fixpoint create_all (reqs : list create_req) (s : state) : state * list string :=
  match reqs with
  | [] => (s, [])
  | r :: reqs' =>
      let '(s1, vid) :=
        create_vps_record (req_now r) (req_owner r) (req_ram r) (req_cpu r)
                          (req_storage r) s in
      let '(s2, vids) := create_all reqs' s1 in
      (s2, vid :: vids)
  end.

(** [n] is the largest numeric key of the resource map. *)
Definition max_numeric_id (s : state) (n : Z) : Prop :=
  (∃ k, is_Some (vps s !! k) ∧ PyStr.isdigit k = true ∧ PyStr.int k = n)
  ∧ ∀ k, is_Some (vps s !! k) → PyStr.isdigit k = true → PyStr.int k ≤ n.

(** [w] qualifies for the giveaway on a message with these reactions: it
    is a user that is no bot, listed under a reaction with the party
    emoji that no other such reaction precedes. *)
Definition qualifies (reactions : list reaction) (w : member) : Prop :=
  ∃ before r after,
    reactions = before ++ r :: after
    ∧ (∀ r', r' ∈ before → react_emoji r' ≠ PARTY)
    ∧ react_emoji r = PARTY
    ∧ w ∈ react_users r ∧ member_bot w = false.

(** Everything but the resource map. *)
Definition frame (s : state) :=
  (purge s, users s, giveaways s, protected s, disk s, tasks s).

(** One round of the sweep loop, seen on the resource map alone. *)
Definition drop_unkept (keep : string → vps_rec → bool) (m : gmap string vps_rec)
    (kv : string * vps_rec) : gmap string vps_rec :=
  if keep kv.1 kv.2 then m else delete kv.1 m.

(** ** Sample stores *)

(** A store holding one account, ["7"], with 30 credits. *)
Definition store_30 : state :=
  with_users (insert "7" (mk_user 30 false false false None None)) fresh_state.

(** A clock reading, 1000 seconds into the epoch. *)
Definition at_1000 : clock := mk_clock 1000 "1970-01-01T00:16:40+00:00".

(** The default configuration: ten credits with a trial. *)
Definition default_config : config := mk_config 10.

(** One resource, ["1"], of account ["7"], who holds a protection record
    running until 260100; nothing on the lists of the purge record. *)
Definition store_reacted : state :=
  mk_state {[ "1" := mk_vps "1" "7" 2 1 20 "active" [] "1970-01-01T00:00:00+00:00" None ]}
           fresh_purge ∅ ∅ [mk_protection "7" "X" 900 260100] [] [].

(** Account ["7"] asks for a trial twice, presses both prompts, and the
    first of the two trials runs out. *)
Definition double_claim : list event :=
  [CmdTrial "7"; CmdTrial "7"; PressClaim "7" at_1000; PressClaim "7" at_1000;
   TrialDeadline "1"].

(** The store once account ["7"] has claimed its trial. *)
Definition store_claimed_once : state :=
  (ConfirmSelfClaim_claim default_config at_1000 "7" fresh_state).1.

(** The store at the end of [double_claim]. *)
Definition store_after_double_claim : state :=
  match run default_config double_claim (mk_bot fresh_state []) with
  | Some b => store b
  | None => fresh_state
  end.

(** The store right after the owner opened a giveaway of 100 credits
    under rallying message 55, to end at 4600. *)
Definition store_giveaway : state :=
  giveaway_credits true 1 2 100 3600 55 at_1000 fresh_state.

(** Account 7 and a bot reacted with the party emoji, account 8 with
    something else. *)
Definition sample_reactions : list reaction :=
  [mk_reaction "X" [mk_member 8 false];
   mk_reaction PARTY [mk_member 99 true; mk_member 7 false]].

(** ** Further commands *)

(** *** Durations *)

(** The longest prefix of decimal digits, and what follows it. *)
Fixpoint span_digits (s : string) : string * string :=
  match s with
  | EmptyString => (EmptyString, EmptyString)
  | String c s' =>
      if PyStr.is_digit_char c
      then let '(ds, rest) := span_digits s' in (String c ds, rest)
      else (EmptyString, s)
  end.

(** A final line feed is not seen by [$]. *)
Fixpoint chomp (s : string) : string :=
  match s with
  | EmptyString => EmptyString
  | String c EmptyString => if Ascii.eqb c (ascii_of_nat 10) then EmptyString else s
  | String c s' => String c (chomp s')
  end.

(** The unit group of the pattern and the seconds it stands for. *)
Definition unit_seconds (u : string) : option Z :=
  if decide (u = "s") then Some 1
  else if decide (u = "m") then Some 60
  else if decide (u = "h") then Some 3600
  else if decide (u = "d") then Some 86400
  else if decide (u = "w") then Some (7 * 86400)
  else if decide (u = "mo") then Some (30 * 86400)
  else None.

(** The text is made of ASCII characters only. *)
Fixpoint ascii_only (s : string) : bool :=
  match s with
  | EmptyString => true
  | String c s' => (nat_of_ascii c <? 128)%nat && ascii_only s'
  end.

(** [parse_duration(s)] on a text of ASCII characters: the pattern is
    digits, then one unit, then the end of the text. Outside ASCII the
    pattern's digit class and [int] also read the decimal digits of other
    scripts, which this function does not: what is stated of it for every
    text is stated under [ascii_only]. *)
Definition parse_duration (s : string) : Z :=
  let '(ds, rest) := span_digits s in
  match ds with
  | EmptyString => 0
  | String _ _ =>
      match unit_seconds (chomp rest) with
      | Some f => PyStr.int ds * f
      | None => 0
      end
  end.

(** *** Timed rewards *)

Definition set_last_daily (t : Z) (u : user_rec) : user_rec :=
  mk_user (credits u) (trial_claimed u) (trial_active u) (is_admin u) (Some t)
          (last_weekly u).
Definition set_last_weekly (t : Z) (u : user_rec) : user_rec :=
  mk_user (credits u) (trial_claimed u) (trial_active u) (is_admin u) (last_daily u)
          (Some t).

Inductive reward_reply := OnCooldown | Rewarded.

(** [USER_DB["users"][uid].get("last_daily", 0)]. *)
Definition last_daily_of (s : state) (uid : string) : Z :=
  match users s !! uid with
  | Some u => default 0 (last_daily u)
  | None => 0
  end.

Definition last_weekly_of (s : state) (uid : string) : Z :=
  match users s !! uid with
  | Some u => default 0 (last_weekly u)
  | None => 0
  end.

(** [daily], the [.daily] command. *)
Definition daily (uid : string) (now : clock) (s : state) : state * reward_reply :=
  let s := ensure_user_record uid s in
  let last := last_daily_of s uid in
  if decide (unix now - last < 24 * 3600) then (s, OnCooldown)
  else
    let s := update_user uid (set_credits (credits_of s uid + 50)) s in
    let s := update_user uid (set_last_daily (unix now)) s in
    (save_user_db s, Rewarded).

(** [weekly], the [.weekly] command. *)
Definition weekly (uid : string) (now : clock) (s : state) : state * reward_reply :=
  let s := ensure_user_record uid s in
  let last := last_weekly_of s uid in
  if decide (unix now - last < 7 * 24 * 3600) then (s, OnCooldown)
  else
    let s := update_user uid (set_credits (credits_of s uid + 400)) s in
    let s := update_user uid (set_last_weekly (unix now)) s in
    (save_user_db s, Rewarded).

(** *** Purchases and bets *)

Record plan := mk_plan { plan_cost : Z; plan_cpu : Z; plan_ram : Z; plan_storage : Z }.

(** The price table inside [buy_with_credits]. *)
Definition plans (name : string) : option plan :=
  if decide (name = "ul-1") then Some (mk_plan 170 2 8 50)
  else if decide (name = "ul-2") then Some (mk_plan 320 4 16 100)
  else if decide (name = "ul-3") then Some (mk_plan 600 6 32 200)
  else if decide (name = "xl-1") then Some (mk_plan 900 8 48 350)
  else if decide (name = "xl-2") then Some (mk_plan 1200 12 64 500)
  else if decide (name = "basic") then Some (mk_plan 150 1 25 65)
  else if decide (name = "standard") then Some (mk_plan 200 2 50 100)
  else if decide (name = "pro") then Some (mk_plan 300 4 75 150)
  else if decide (name = "premium") then Some (mk_plan 500 6 100 250)
  else None.

Inductive buy_reply :=
  | BuyMaintenance
  | BuyUnknownPlan
  | BuyInsufficient (balance cost : Z)
  | Bought (vid : string).

(** [buy_with_credits], the [.buywc] command. [maintenance] is the value
    of [VPS_DATA["maintenance"]] when the command runs. *)
Definition buy_with_credits (maintenance : bool) (uid plan_name : string) (now : clock)
    (s : state) : state * buy_reply :=
  if maintenance then (s, BuyMaintenance)
  else
    match plans (PyStr.lower plan_name) with
    | None => (s, BuyUnknownPlan)
    | Some p =>
        let s := ensure_user_record uid s in
        let balance := credits_of s uid in
        if decide (balance < plan_cost p) then (s, BuyInsufficient balance (plan_cost p))
        else
          let s := update_user uid (set_credits (balance - plan_cost p)) s in
          let '(s, vid) :=
            create_vps_record now uid (plan_ram p) (plan_cpu p) (plan_storage p) s in
          (save_user_db s, Bought vid)
    end.

(** [gamble], the [.gamble] command. The two booleans are the outcomes of
    the tests [roll < 0.05] and [roll < 0.5] on the random draw. *)
Definition gamble (uid : string) (amount : Z) (below_005 below_05 : bool)
    (s : state) : state * credit_reply :=
  if decide (amount ≤ 0) then (s, MustBePositive)
  else
    let s := ensure_user_record uid s in
    let balance := credits_of s uid in
    if decide (balance < amount) then (s, InsufficientBalance)
    else
      let s := update_user uid (set_credits (balance - amount)) s in
      let s :=
        if below_005 then
          let win := amount * 10 in
          update_user uid (set_credits (credits_of s uid + win)) s
        else if below_05 then
          let win := amount * 2 in
          update_user uid (set_credits (credits_of s uid + win)) s
        else s in
      (save_user_db s, Done).

(** [bulk_grant], the [.bulkgrant] command, over the ids of the members. *)
Definition bulk_grant (author_is_owner : bool) (amount : Z) (members : list Z)
    (s : state) : state * credit_reply :=
  if negb author_is_owner then (s, OwnerOnly)
  else
    let s := foldl (λ (s : state) (m : Z),
                      let uid := PyStr.str m in
                      let s := ensure_user_record uid s in
                      update_user uid (set_credits (credits_of s uid + amount)) s)
                   s members in
    (save_user_db s, Done).

(** *** Explicit purge protection *)

Definition set_protected_vps (l : list string) (p : purge_rec) : purge_rec :=
  mk_purge (purge_active p) l (protected_users p) (purge_message_id p)
           (purge_channel_id p) (purge_start_ts p) (purge_end_ts p).
Definition set_protected_users (l : list string) (p : purge_rec) : purge_rec :=
  mk_purge (purge_active p) (protected_vps p) l (purge_message_id p)
           (purge_channel_id p) (purge_start_ts p) (purge_end_ts p).

(** [''.join(ch for ch in target if ch.isdigit())]. *)
Fixpoint digits_of (s : string) : string :=
  match s with
  | EmptyString => EmptyString
  | String c s' => if PyStr.is_digit_char c then String c (digits_of s') else digits_of s'
  end.

(** [target.startswith("<@")]. *)
Definition is_mention (target : string) : bool := String.prefix "<@" target.

Inductive protect_reply :=
  | ProtectOwnerOnly
  | ProtectNotAuthorized
  | UserListed (tid : string)
  | VpsListed (vid : string)
  | UserUnlisted (tid : string)
  | VpsUnlisted (vid : string)
  | ProtectUnparsed
  | ProtectNotFound.

(** [dont_purge], the [.dontpurgevps] command. *)
Definition dont_purge (author_is_owner : bool) (target : string)
    (s : state) : state * protect_reply :=
  if negb author_is_owner then (s, ProtectOwnerOnly)
  else
    let on_id (s : state) :=
      if PyStr.isdigit target then
        let s := with_purge (λ p, set_protected_vps (protected_vps p ++ [target]) p) s in
        (save_vps_data s, VpsListed target)
      else (s, ProtectUnparsed) in
    if is_mention target then
      let tid := digits_of target in
      if decide (tid = "") then on_id s
      else
        let s := with_purge (λ p, set_protected_users (protected_users p ++ [tid]) p) s in
        (save_vps_data s, UserListed tid)
    else on_id s.

(** [RemoveProtectionConfirm.confirm], the button under the prompt of
    [.dontpurgevpsr]; [authorized] says whether the presser is the
    requester or the owner. *)
Definition RemoveProtectionConfirm_confirm (authorized : bool) (t : string)
    (s : state) : state * protect_reply :=
  if negb authorized then (s, ProtectNotAuthorized)
  else
    let on_id (s : state) :=
      if PyStr.isdigit t then
        if decide (t ∈ protected_vps (purge s)) then
          let s := with_purge (λ p, set_protected_vps (remove_first t (protected_vps p)) p) s in
          (save_vps_data s, VpsUnlisted t)
        else (s, ProtectNotFound)
      else (s, ProtectNotFound) in
    if is_mention t then
      let tid := digits_of t in
      if decide (tid ∈ protected_users (purge s)) then
        let s := with_purge (λ p, set_protected_users (remove_first tid (protected_users p)) p) s in
        (save_vps_data s, UserUnlisted tid)
      else on_id s
    else on_id s.

(** *** Sharing and resource management *)

Definition set_shared_with (l : list string) (v : vps_rec) : vps_rec :=
  mk_vps (vps_id v) (vps_owner v) (vps_ram v) (vps_cpu v) (vps_storage v) (vps_status v)
         l (vps_created_at v) (vps_trial_expires v).

(** [vps_manage_allowed(user, v)]; [owner_id] is [OWNER_ID]. *)
Definition vps_manage_allowed (owner_id user_id : Z) (v : vps_rec) : bool :=
  bool_decide (PyStr.str user_id = vps_owner v) || bool_decide (user_id = owner_id).

Inductive share_reply :=
  | ShareNotFound
  | ShareNotAllowed
  | ShareAlready
  | ShareAbsent
  | Shared
  | Revoked.

(** [share_user], the [.shareuser] command. *)
Definition share_user (owner_id author member : Z) (vid : string)
    (s : state) : state * share_reply :=
  match vps s !! vid with
  | None => (s, ShareNotFound)
  | Some v =>
      if negb (vps_manage_allowed owner_id author v) then (s, ShareNotAllowed)
      else
        let sw := vps_shared_with v in
        if decide (PyStr.str member ∈ sw) then (s, ShareAlready)
        else
          let s := with_vps (insert vid (set_shared_with (sw ++ [PyStr.str member]) v)) s in
          (save_vps_data s, Shared)
  end.

(** [revoke_shared_user], the [.shareruser] command. *)
Definition revoke_shared_user (owner_id author member : Z) (vid : string)
    (s : state) : state * share_reply :=
  match vps s !! vid with
  | None => (s, ShareNotFound)
  | Some v =>
      if negb (vps_manage_allowed owner_id author v) then (s, ShareNotAllowed)
      else
        let sw := vps_shared_with v in
        if decide (PyStr.str member ∈ sw) then
          let s := with_vps (insert vid (set_shared_with (remove_first (PyStr.str member) sw) v)) s in
          (save_vps_data s, Revoked)
        else (s, ShareAbsent)
  end.

(** The [allowed] test of the management buttons: the owner of the
    resource, a user it is shared with, or the owner of the bot. *)
Definition allowed (owner_id user_id : Z) (vid : string) (s : state) : bool :=
  match vps s !! vid with
  | None => false
  | Some vrec =>
      bool_decide (PyStr.str user_id = vps_owner vrec)
      || bool_decide (PyStr.str user_id ∈ vps_shared_with vrec)
      || bool_decide (user_id = owner_id)
  end.

(** [ConfirmView.confirm], the button that deletes a resource. *)
Definition ConfirmView_confirm (authorized : bool) (vid : string) (s : state) : state :=
  if negb authorized then s
  else save_vps_data (with_vps (delete vid) s).

(** [unsuspend], the [.unsuspend] command; [true] when it was carried out. *)
Definition unsuspend (author_is_owner : bool) (member : Z) (vid : string)
    (s : state) : state * bool :=
  if negb author_is_owner then (s, false)
  else
    match vps s !! vid with
    | None => (s, false)
    | Some v =>
        if decide (vps_owner v ≠ PyStr.str member) then (s, false)
        else (save_vps_data (with_vps (insert vid (set_status "active" v)) s), true)
    end.

(** [VpsSelectView.select_callback] with the action "suspend". *)
Definition select_callback_suspend (vid : string) (s : state) : state :=
  match vps s !! vid with
  | None => s
  | Some v => save_vps_data (with_vps (insert vid (set_status "suspended" v)) s)
  end.

(** [list_user_vps(owner_id)]. *)
Definition list_user_vps (owner_id : string) (s : state) : list vps_rec :=
  (filter (λ kv : string * vps_rec, vps_owner kv.2 = owner_id) (map_to_list (vps s))).*2.

(** The trial tasks [on_ready] arms for a list of resources. *)
Definition trial_tasks (l : list (string * vps_rec)) : list task :=
  omap (λ kv : string * vps_rec,
          match vps_trial_expires kv.2 with
          | Some end_ts =>
              if decide (end_ts = 0) then None
              else Some (ScheduleTrialExpiry kv.1 end_ts)
          | None => None
          end) l.

(** [clear_db], the [.cleardb] command; [true] when a document was
    cleared. *)
Definition clear_db (author_is_owner : bool) (which : string) (s : state) : state * bool :=
  if negb author_is_owner then (s, false)
  else if decide (which = "users") then (save_user_db (with_users (λ _, ∅) s), true)
  else if decide (which = "vps") then (save_vps_data (with_vps (λ _, ∅) s), true)
  else (s, false).

(** *** One purge window *)




(** * Properties *)

(** ** Decimal strings *)

Lemma all_digits_string_of_uint d :
  PyStr.all_digits (NilEmpty.string_of_uint d) = true.
Proof. induction d; simpl; auto. Qed.

Lemma string_of_uint_nonempty d :
  d ≠ Decimal.Nil → NilEmpty.string_of_uint d ≠ EmptyString.
Proof. destruct d; simpl; congruence. Qed.

Lemma str_pos p : PyStr.str (Z.pos p) = NilEmpty.string_of_uint (Pos.to_uint p).
Proof. reflexivity. Qed.

Lemma isdigit_str n : 0 ≤ n → PyStr.isdigit (PyStr.str n) = true.
Proof.
  intros Hn. destruct n as [|p|p]; [reflexivity| |lia].
  rewrite str_pos. unfold PyStr.isdigit.
  pose proof (string_of_uint_nonempty _ (DecimalPos.Unsigned.to_uint_nonnil p)) as Hne.
  pose proof (all_digits_string_of_uint (Pos.to_uint p)) as Hall.
  destruct (NilEmpty.string_of_uint (Pos.to_uint p)); [congruence | exact Hall].
Qed.

Lemma int_str n : 0 ≤ n → PyStr.int (PyStr.str n) = n.
Proof.
  intros Hn. destruct n as [|p|p]; [reflexivity| |lia].
  rewrite str_pos. unfold PyStr.int, PyStr.int_of_digits.
  pose proof (string_of_uint_nonempty _ (DecimalPos.Unsigned.to_uint_nonnil p)) as Hne.
  pose proof (NilEmpty.usu (Pos.to_uint p)) as Hu.
  destruct (NilEmpty.string_of_uint (Pos.to_uint p)) eqn:E; [congruence|].
  rewrite Hu. simpl. unfold Z.of_uint.
  by rewrite DecimalPos.Unsigned.of_to.
Qed.

Lemma int_nonneg k : 0 ≤ PyStr.int k.
Proof.
  unfold PyStr.int, PyStr.int_of_digits.
  destruct k; simpl; [lia|].
  match goal with |- context [match ?o with _ => _ end] => destruct o end;
    simpl; [unfold Z.of_uint|]; lia.
Qed.

(** ** Id allocation *)

Lemma elem_of_vps_nums (m : gmap string vps_rec) (n : Z) :
  n ∈ vps_nums m ↔ ∃ k, is_Some (m !! k) ∧ PyStr.isdigit k = true ∧ PyStr.int k = n.
Proof.
  unfold vps_nums. rewrite list_elem_of_fmap. split.
  - intros (k & -> & Hk). apply list_elem_of_filter in Hk as [Hd Hk].
    apply list_elem_of_fmap in Hk as ([k' v] & -> & Hkv).
    apply elem_of_map_to_list in Hkv. exists k'. simpl in *. eauto.
  - intros (k & [v Hv] & Hd & <-). exists k. split; [done|].
    apply list_elem_of_filter. split; [done|].
    apply list_elem_of_fmap. exists (k, v). split; [done|].
    by apply elem_of_map_to_list.
Qed.

Lemma py_max_ge n ns x : x ∈ n :: ns → x ≤ py_max n ns.
Proof.
  unfold py_max. induction ns as [|y ns IH]; simpl.
  - intros Hx. apply list_elem_of_singleton in Hx. lia.
  - intros Hx. apply elem_of_cons in Hx as [->|Hx].
    + assert (n ≤ foldr Z.max n ns) by (apply IH; left). lia.
    + apply elem_of_cons in Hx as [->|Hx]; [lia|].
      assert (x ≤ foldr Z.max n ns) by (apply IH; by right). lia.
Qed.

Lemma py_max_in n ns : py_max n ns ∈ n :: ns.
Proof.
  unfold py_max. induction ns as [|y ns IH]; simpl; [left|].
  destruct (Z.max_spec y (foldr Z.max n ns)) as [[_ ->]|[_ ->]].
  - apply elem_of_cons in IH as [Heq|IH]; [rewrite Heq; left | by do 2 right].
  - right; left.
Qed.

(** The id handed out is a decimal numeral above every numeric key. *)
Lemma get_next_vps_id_above s :
  PyStr.isdigit (get_next_vps_id s) = true
  ∧ ∀ k, is_Some (vps s !! k) → PyStr.isdigit k = true →
         PyStr.int k < PyStr.int (get_next_vps_id s).
Proof.
  unfold get_next_vps_id. destruct (decide (vps s = ∅)) as [He|Hne].
  { split; [done|]. intros k [v Hv]. rewrite He in Hv. by rewrite lookup_empty in Hv. }
  destruct (vps_nums (vps s)) as [|n ns] eqn:E.
  { split; [done|]. intros k Hk Hd.
    assert (PyStr.int k ∈ vps_nums (vps s)) as Hin
      by (apply elem_of_vps_nums; eauto).
    rewrite E in Hin. by apply elem_of_nil in Hin. }
  assert (0 ≤ py_max n ns) as Hpos.
  { pose proof (py_max_in n ns) as Hin. rewrite <- E in Hin.
    apply elem_of_vps_nums in Hin as (k & _ & _ & <-). apply int_nonneg. }
  split; [apply isdigit_str; lia|].
  intros k Hk Hd. rewrite int_str by lia.
  assert (PyStr.int k ≤ py_max n ns); [|lia].
  apply py_max_ge. rewrite <- E. apply elem_of_vps_nums. eauto.
Qed.

Lemma get_next_vps_id_fresh s : vps s !! get_next_vps_id s = None.
Proof.
  destruct (get_next_vps_id_above s) as [Hd Hlt].
  destruct (vps s !! get_next_vps_id s) eqn:E; [|done].
  specialize (Hlt (get_next_vps_id s)). rewrite E in Hlt.
  specialize (Hlt (mk_is_Some _ _ eq_refl) Hd). lia.
Qed.

Lemma get_next_vps_id_max s n :
  max_numeric_id s n → get_next_vps_id s = PyStr.str (n + 1).
Proof.
  intros [(k & [v Hk] & Hd & Hn) Hmax]. unfold get_next_vps_id.
  destruct (decide (vps s = ∅)) as [He|Hne].
  { rewrite He in Hk. by rewrite lookup_empty in Hk. }
  assert (n ∈ vps_nums (vps s)) as Hin by (apply elem_of_vps_nums; eauto).
  destruct (vps_nums (vps s)) as [|m ms] eqn:E; [by apply elem_of_nil in Hin|].
  f_equal. f_equal. apply Z.le_antisymm.
  - pose proof (py_max_in m ms) as Hm. rewrite <- E in Hm.
    apply elem_of_vps_nums in Hm as (k' & Hk' & Hd' & <-). by apply Hmax.
  - by apply py_max_ge.
Qed.

Lemma create_vps_record_vps now owner ram cpu storage s :
  vps (create_vps_record now owner ram cpu storage s).1
  = <[get_next_vps_id s :=
        mk_vps (get_next_vps_id s) owner ram cpu storage "active" [] (iso now) None]>
      (vps s).
Proof. reflexivity. Qed.

Lemma create_all_cons_ids r reqs s :
  (create_all (r :: reqs) s).2
  = get_next_vps_id s
    :: (create_all reqs (create_vps_record (req_now r) (req_owner r) (req_ram r)
                           (req_cpu r) (req_storage r) s).1).2.
Proof.
  cbn [create_all]. unfold create_vps_record at 1. cbn [fst snd].
  unfold create_vps_record.
  by destruct (create_all reqs _).
Qed.

(** Every id of a run lies above the numeric keys the run started from. *)
Lemma create_all_above reqs : ∀ s vid,
  vid ∈ (create_all reqs s).2 →
  PyStr.isdigit vid = true
  ∧ ∀ k, is_Some (vps s !! k) → PyStr.isdigit k = true → PyStr.int k < PyStr.int vid.
Proof.
  induction reqs as [|r reqs IH]; intros s vid.
  { intros H. by apply elem_of_nil in H. }
  rewrite create_all_cons_ids. intros Hin.
  apply elem_of_cons in Hin as [->|Hin]; [apply get_next_vps_id_above|].
  destruct (IH _ _ Hin) as [Hd Hlt].
  split; [done|]. intros k [x Hk] Hkd. apply Hlt; [|done].
  rewrite create_vps_record_vps.
  destruct (decide (get_next_vps_id s = k)) as [->|Hne].
  - rewrite lookup_insert_eq. eauto.
  - rewrite lookup_insert_ne by done. eauto.
Qed.

Lemma create_all_sorted reqs : ∀ s,
  StronglySorted Z.lt (PyStr.int <$> (create_all reqs s).2).
Proof.
  induction reqs as [|r reqs IH]; intros s; [constructor|].
  rewrite create_all_cons_ids, fmap_cons. constructor; [apply IH|].
  apply Forall_fmap, Forall_forall. intros vid Hin. simpl.
  destruct (create_all_above _ _ _ Hin) as [_ Hlt]. apply Hlt.
  - rewrite create_vps_record_vps, lookup_insert_eq. eauto.
  - apply get_next_vps_id_above.
Qed.

Lemma StronglySorted_lt_NoDup (l : list Z) : StronglySorted Z.lt l → NoDup l.
Proof.
  induction 1 as [|x l Hs IH Hall]; constructor; [|done].
  intros Hin. rewrite Forall_forall in Hall. specialize (Hall x Hin). lia.
Qed.

(** C5. [get_next_vps_id] answers "1" on an empty resource map and the
    successor of the largest numeric key otherwise; [create_vps_record]
    stores under that id, which was free, a record with status active, no
    sharers and the current time, saves the document once and returns the
    id; the ids of any run of creations are strictly increasing as numbers
    and pairwise distinct. *)
Theorem create_vps_record_ids :
  (∀ s, vps s = ∅ → get_next_vps_id s = "1")
  ∧ (∀ s n, max_numeric_id s n → get_next_vps_id s = PyStr.str (n + 1))
  ∧ (∀ now owner ram cpu storage s,
       let r := create_vps_record now owner ram cpu storage s in
       r.2 = get_next_vps_id s
       ∧ vps s !! r.2 = None
       ∧ vps r.1 = <[r.2 := mk_vps r.2 owner ram cpu storage "active" [] (iso now) None]>
                     (vps s)
       ∧ disk r.1 = VpsDoc :: disk s
       ∧ users r.1 = users s ∧ purge r.1 = purge s)
  ∧ (∀ reqs s,
       StronglySorted Z.lt (PyStr.int <$> (create_all reqs s).2)
       ∧ NoDup (create_all reqs s).2).
Proof.
  split; [|split; [|split]].
  - intros s He. unfold get_next_vps_id. by rewrite decide_True.
  - apply get_next_vps_id_max.
  - intros now owner ram cpu storage s. simpl.
    split; [done|]. split; [apply get_next_vps_id_fresh|]. done.
  - intros reqs s. pose proof (create_all_sorted reqs s) as Hs.
    split; [done|]. apply StronglySorted_lt_NoDup in Hs.
    by apply NoDup_fmap_1 in Hs.
Qed.

Lemma create_vps_record_ids_witness :
  get_next_vps_id store_reacted = "2"
  ∧ (create_all [mk_req at_1000 "7" 2 1 20; mk_req at_1000 "8" 2 1 20] store_reacted).2
    = ["2"; "3"].
Proof.
  destruct create_vps_record_ids as (_ & Hmax & _ & _).
  split; [|by vm_compute].
  apply (Hmax store_reacted 1). split.
  - exists "1". split; [|done]. eexists. reflexivity.
  - intros k [v Hk] Hd. unfold store_reacted in Hk. simpl in Hk.
    apply lookup_singleton_Some in Hk as [<- _]. done.
Defined.


(** ** Accounts *)

Lemma ensure_user_record_lookup uid s :
  users (ensure_user_record uid s) !! uid = Some (default new_user (users s !! uid)).
Proof.
  unfold ensure_user_record. destruct (users s !! uid) eqn:E; simpl; [done|].
  by rewrite lookup_insert_eq.
Qed.

Lemma ensure_user_record_other uid w s :
  w ≠ uid → users (ensure_user_record uid s) !! w = users s !! w.
Proof.
  intros Hne. unfold ensure_user_record. destruct (users s !! uid); simpl; [done|].
  by rewrite lookup_insert_ne.
Qed.

Lemma ensure_user_record_present uid s u :
  users s !! uid = Some u → ensure_user_record uid s = s.
Proof. intros H. unfold ensure_user_record. by rewrite H. Qed.

Lemma credits_of_ensure uid w s :
  credits_of (ensure_user_record uid s) w = credits_of s w.
Proof.
  unfold credits_of. destruct (decide (w = uid)) as [->|Hne].
  - rewrite ensure_user_record_lookup. by destruct (users s !! uid).
  - by rewrite ensure_user_record_other.
Qed.

Lemma ensure_user_record_frame uid s :
  vps (ensure_user_record uid s) = vps s
  ∧ purge (ensure_user_record uid s) = purge s
  ∧ giveaways (ensure_user_record uid s) = giveaways s
  ∧ protected (ensure_user_record uid s) = protected s
  ∧ tasks (ensure_user_record uid s) = tasks s.
Proof. unfold ensure_user_record. by destruct (users s !! uid). Qed.

Lemma credits_of_update_same uid c s :
  is_Some (users s !! uid) → credits_of (update_user uid (set_credits c) s) uid = c.
Proof.
  intros [u Hu]. unfold credits_of, update_user. simpl.
  by rewrite lookup_alter_eq, Hu.
Qed.

Lemma credits_of_update_other uid w f s :
  w ≠ uid → credits_of (update_user uid f s) w = credits_of s w.
Proof.
  intros Hne. unfold credits_of, update_user. simpl.
  by rewrite lookup_alter_ne.
Qed.

Lemma credits_of_save d s w : credits_of (save d s) w = credits_of s w.
Proof. reflexivity. Qed.

(** *** The sum of all balances *)

Lemma sum_credits_insert (m : gmap string user_rec) k u :
  m !! k = None → sum_credits (<[k:=u]> m) = credits u + sum_credits m.
Proof.
  intros Hk. unfold sum_credits. rewrite map_fold_insert_L; [done| |done].
  intros. lia.
Qed.

Lemma sum_credits_delete (m : gmap string user_rec) k u :
  m !! k = Some u → sum_credits m = credits u + sum_credits (delete k m).
Proof.
  intros Hk. unfold sum_credits.
  rewrite (map_fold_delete_L _ _ k u m); [done| |done].
  intros. lia.
Qed.

Lemma sum_credits_alter (m : gmap string user_rec) k u f :
  m !! k = Some u →
  sum_credits (alter f k m) = sum_credits m - credits u + credits (f u).
Proof.
  intros Hk. rewrite (sum_credits_delete m k u Hk).
  assert (alter f k m = <[k := f u]> (delete k m)) as ->.
  { apply map_eq. intros j. destruct (decide (j = k)) as [->|Hne].
    - by rewrite lookup_alter_eq, lookup_insert_eq, Hk.
    - by rewrite lookup_alter_ne, lookup_insert_ne, lookup_delete_ne. }
  rewrite sum_credits_insert by apply lookup_delete_eq. lia.
Qed.

Lemma total_credits_ensure uid s :
  total_credits (ensure_user_record uid s) = total_credits s.
Proof.
  unfold total_credits, ensure_user_record.
  destruct (users s !! uid) eqn:E; simpl; [done|].
  by rewrite sum_credits_insert.
Qed.

Lemma total_credits_set uid c s :
  is_Some (users s !! uid) →
  total_credits (update_user uid (set_credits c) s)
  = total_credits s - credits_of s uid + c.
Proof.
  intros [u Hu]. unfold total_credits, update_user, credits_of. simpl.
  rewrite (sum_credits_alter _ _ u) by done. by rewrite Hu.
Qed.

Lemma update_user_is_Some uid w f s :
  is_Some (users s !! w) → is_Some (users (update_user uid f s) !! w).
Proof.
  intros [u Hu]. unfold update_user. simpl. destruct (decide (w = uid)) as [->|Hne].
  - rewrite lookup_alter_eq, Hu. eauto.
  - rewrite lookup_alter_ne, Hu by done. eauto.
Qed.

Lemma ensure_user_record_is_Some uid w s :
  w = uid ∨ is_Some (users s !! w) → is_Some (users (ensure_user_record uid s) !! w).
Proof.
  intros [->|[u Hu]].
  - rewrite ensure_user_record_lookup. eauto.
  - destruct (decide (w = uid)) as [->|Hne].
    + rewrite ensure_user_record_lookup. eauto.
    + rewrite ensure_user_record_other, Hu by done. eauto.
Qed.

(** ** Transfers *)

Lemma transfer_rejected uid tid amount s :
  amount ≤ 0 ∨ credits_of s uid < amount →
  (transfer uid tid amount s).2 ≠ Done
  ∧ total_credits (transfer uid tid amount s).1 = total_credits s
  ∧ ∀ w, credits_of (transfer uid tid amount s).1 w = credits_of s w.
Proof.
  intros Hrej. unfold transfer.
  destruct (decide (amount ≤ 0)) as [Hle|Hgt]; [done|].
  destruct Hrej as [?|Hlow]; [lia|].
  rewrite decide_True by (by rewrite !credits_of_ensure).
  simpl. split; [done|]. split.
  - by rewrite !total_credits_ensure.
  - intros w. by rewrite !credits_of_ensure.
Qed.

Lemma transfer_accepted uid tid amount s :
  0 < amount → amount ≤ credits_of s uid →
  (transfer uid tid amount s).2 = Done
  ∧ total_credits (transfer uid tid amount s).1 = total_credits s
  ∧ (uid ≠ tid →
     credits_of (transfer uid tid amount s).1 uid = credits_of s uid - amount
     ∧ credits_of (transfer uid tid amount s).1 tid = credits_of s tid + amount)
  ∧ ∀ w, w ≠ uid → w ≠ tid →
         credits_of (transfer uid tid amount s).1 w = credits_of s w.
Proof.
  intros Hpos Hbal. unfold transfer.
  rewrite decide_False by lia.
  set (s1 := ensure_user_record tid (ensure_user_record uid s)).
  assert (∀ w, credits_of s1 w = credits_of s w) as Hc1
    by (intros w; unfold s1; by rewrite !credits_of_ensure).
  assert (is_Some (users s1 !! uid)) as Hu.
  { unfold s1. apply ensure_user_record_is_Some. right.
    apply ensure_user_record_is_Some. by left. }
  assert (is_Some (users s1 !! tid)) as Ht.
  { unfold s1. apply ensure_user_record_is_Some. by left. }
  rewrite decide_False by (rewrite Hc1; lia).
  set (s2 := update_user uid (set_credits (credits_of s1 uid - amount)) s1).
  assert (is_Some (users s2 !! tid)) as Ht2 by (by apply update_user_is_Some).
  cbn [fst snd]. unfold save_user_db. split; [done|]. split; [|split].
  - change (total_credits (save UserDoc ?x)) with (total_credits x).
    rewrite total_credits_set by done. unfold s2 at 1.
    rewrite total_credits_set by done.
    unfold s1 at 1. rewrite !total_credits_ensure. lia.
  - intros Hne. rewrite !credits_of_save. split.
    + rewrite credits_of_update_other by done. unfold s2.
      rewrite credits_of_update_same by done. by rewrite Hc1.
    + rewrite credits_of_update_same by done. unfold s2.
      rewrite credits_of_update_other by done. by rewrite Hc1.
  - intros w Hwu Hwt. rewrite credits_of_save.
    rewrite credits_of_update_other by done. unfold s2.
    rewrite credits_of_update_other by done. apply Hc1.
Qed.

(** C10. [transfer] keeps the sum of all balances; with a positive amount
    the sender can cover, the sender of a transfer between two accounts
    loses exactly the amount, the recipient gains exactly the amount and
    nobody else changes; with a non-positive amount or too small a balance
    the call is refused and every balance stays as it was. *)
Theorem transfer_conserves uid tid amount s :
  total_credits (transfer uid tid amount s).1 = total_credits s
  ∧ (0 < amount → amount ≤ credits_of s uid → uid ≠ tid →
       (transfer uid tid amount s).2 = Done
       ∧ credits_of (transfer uid tid amount s).1 uid = credits_of s uid - amount
       ∧ credits_of (transfer uid tid amount s).1 tid = credits_of s tid + amount
       ∧ ∀ w, w ≠ uid → w ≠ tid →
              credits_of (transfer uid tid amount s).1 w = credits_of s w)
  ∧ (amount ≤ 0 ∨ credits_of s uid < amount →
       (transfer uid tid amount s).2 ≠ Done
       ∧ ∀ w, credits_of (transfer uid tid amount s).1 w = credits_of s w).
Proof.
  split; [|split].
  - destruct (decide (0 < amount ∧ amount ≤ credits_of s uid)) as [[H1 H2]|Hn].
    + by apply transfer_accepted.
    + apply transfer_rejected. lia.
  - intros H1 H2 Hne.
    destruct (transfer_accepted uid tid amount s H1 H2) as (Hd & _ & Hst & Hw).
    destruct (Hst Hne). done.
  - intros Hrej. destruct (transfer_rejected uid tid amount s Hrej) as (? & _ & ?).
    done.
Qed.

Lemma transfer_conserves_witness :
  credits_of (transfer "7" "8" 10 store_30).1 "7" = 20
  ∧ credits_of (transfer "7" "8" 10 store_30).1 "8" = 10
  ∧ total_credits (transfer "7" "8" 10 store_30).1 = total_credits store_30.
Proof.
  destruct (transfer_conserves "7" "8" 10 store_30) as (Htot & Hok & _).
  destruct Hok as (_ & H7 & H8 & _); [lia | by vm_compute | done |].
  split; [exact H7|]. split; [exact H8 | exact Htot].
Defined.


(** ** Trial expiry *)

Lemma finalize_trial_vps_absent vid s :
  vps s !! vid = None → finalize_trial_vps vid s = s.
Proof. intros H. unfold finalize_trial_vps. by rewrite H. Qed.

Lemma finalize_trial_vps_vps vid s :
  vps (finalize_trial_vps vid s) = delete vid (vps s).
Proof.
  unfold finalize_trial_vps. destruct (vps s !! vid) as [v|] eqn:E.
  - destruct (decide (vps_owner v = "")); simpl; [done|].
    by destruct (ensure_user_record_frame (vps_owner v)
                   (save_vps_data (with_vps (delete vid) s))) as [-> _].
  - symmetry. by apply delete_id.
Qed.

Lemma finalize_trial_vps_owner vid s v :
  vps s !! vid = Some v → vps_owner v ≠ "" →
  ∃ u, users (finalize_trial_vps vid s) !! vps_owner v = Some u
       ∧ trial_active u = false.
Proof.
  intros Hv Ho. unfold finalize_trial_vps. rewrite Hv.
  rewrite decide_False by done. simpl.
  rewrite lookup_alter_eq, ensure_user_record_lookup. simpl. eauto.
Qed.

Lemma finalize_trial_vps_twice vid s :
  finalize_trial_vps vid (finalize_trial_vps vid s) = finalize_trial_vps vid s.
Proof.
  apply finalize_trial_vps_absent.
  rewrite finalize_trial_vps_vps. apply lookup_delete_eq.
Qed.

(** C7. [finalize_trial_vps] on an absent resource returns with nothing
    changed; on a present one it removes the resource and leaves the owner
    with [trial_active] false; run a second time for the same id it changes
    nothing, so twice is the same as once. *)
Theorem finalize_trial_vps_idempotent vid s :
  (vps s !! vid = None → finalize_trial_vps vid s = s)
  ∧ (∀ v, vps s !! vid = Some v →
       vps (finalize_trial_vps vid s) = delete vid (vps s)
       ∧ (vps_owner v ≠ "" →
          ∃ u, users (finalize_trial_vps vid s) !! vps_owner v = Some u
               ∧ trial_active u = false))
  ∧ finalize_trial_vps vid (finalize_trial_vps vid s) = finalize_trial_vps vid s.
Proof.
  split; [apply finalize_trial_vps_absent|]. split.
  - intros v Hv. split; [apply finalize_trial_vps_vps|].
    by apply finalize_trial_vps_owner.
  - apply finalize_trial_vps_twice.
Qed.

Lemma finalize_trial_vps_idempotent_witness :
  vps (finalize_trial_vps "1" store_claimed_once) = delete "1" (vps store_claimed_once)
  ∧ (∃ u, users (finalize_trial_vps "1" store_claimed_once) !! "7" = Some u
          ∧ trial_active u = false)
  ∧ finalize_trial_vps "1" (finalize_trial_vps "1" store_claimed_once)
    = finalize_trial_vps "1" store_claimed_once.
Proof.
  destruct (finalize_trial_vps_idempotent "1" store_claimed_once) as (_ & Hpresent & Htwice).
  destruct (Hpresent (mk_vps "1" "7" 2 1 20 "trial" [] (iso at_1000) (Some 260200)))
    as [Hgone Howner]; [reflexivity|].
  split; [exact Hgone|]. split; [|exact Htwice].
  apply Howner. discriminate.
Defined.


(** ** Giveaway finalization *)

Lemma random_choice_elem {A} rnd (l : list A) :
  l ≠ [] → ∃ x, random_choice rnd l = Some x ∧ x ∈ l.
Proof.
  intros Hne. unfold random_choice.
  assert (rnd mod length l < length l)%nat as Hlt.
  { apply Nat.mod_upper_bound. destruct l; simpl; [done|lia]. }
  destruct (lookup_lt_is_Some_2 l _ Hlt) as [x Hx].
  exists x. split; [done|]. by eapply list_elem_of_lookup_2.
Qed.

Lemma party_reaction_None rs :
  party_reaction rs = None ↔ ∀ r, r ∈ rs → react_emoji r ≠ PARTY.
Proof.
  induction rs as [|r rs IH]; simpl.
  - split; [|done]. intros _ r Hr. by apply elem_of_nil in Hr.
  - destruct (decide (react_emoji r = PARTY)) as [Hp|Hp].
    + split; [done|]. intros H. exfalso. apply (H r); [left|done].
    + rewrite IH. split.
      * intros H r' Hr'. apply elem_of_cons in Hr' as [->|Hr']; [done|by apply H].
      * intros H r' Hr'. apply H. by right.
Qed.

(** [party_reaction] finds the first reaction with the party emoji. *)
Lemma party_reaction_Some rs r :
  party_reaction rs = Some r
  ↔ ∃ before after,
      rs = (before ++ r :: after)%list
      ∧ (∀ r', r' ∈ before → react_emoji r' ≠ PARTY)
      ∧ react_emoji r = PARTY.
Proof.
  induction rs as [|r0 rs IH]; simpl.
  - split; [done|]. intros (before & after & H & _). by destruct before.
  - destruct (decide (react_emoji r0 = PARTY)) as [Hp|Hp].
    + split.
      * intros [= <-]. exists [], rs. split; [done|]. split; [|done].
        intros r' Hr'. by apply elem_of_nil in Hr'.
      * intros (before & after & H & Hb & Hr). destruct before as [|b before].
        -- by inversion H.
        -- inversion H; subst. exfalso. apply (Hb b); [left|done].
    + rewrite IH. split.
      * intros (before & after & -> & Hb & Hr). exists (r0 :: before), after.
        split; [done|]. split; [|done].
        intros r' Hr'. apply elem_of_cons in Hr' as [->|Hr']; [done|by apply Hb].
      * intros (before & after & H & Hb & Hr). destruct before as [|b before].
        -- inversion H; subst. done.
        -- inversion H; subst. exists before, after. split; [done|]. split; [|done].
           intros r' Hr'. apply Hb. by right.
Qed.

(** The participants the routine computes are exactly the users that
    qualify by the reactions on the message. *)
Lemma participants_of_qualifies has_flatten reactions ps :
  participants_of has_flatten reactions = Some ps →
  ∀ w, w ∈ ps ↔ qualifies reactions w.
Proof.
  unfold participants_of, users_flatten, qualifies.
  destruct (party_reaction reactions) as [r|] eqn:E.
  - destruct has_flatten; [|done]. intros [= <-] w.
    rewrite list_elem_of_filter. split.
    + intros [Hb Hin]. apply party_reaction_Some in E as (before & after & ? & ? & ?).
      exists before, r, after. done.
    + intros (before & r' & after & Hrs & Hb & Hr & Hin & Hbot).
      assert (party_reaction reactions = Some r') as E'
        by (apply party_reaction_Some; eauto).
      rewrite E in E'. by inversion E'; subst.
  - intros [= <-] w. split; [intros H; by apply elem_of_nil in H|].
    intros (before & r & after & -> & _ & Hr & _).
    exfalso. eapply party_reaction_None; [exact E| |exact Hr].
    apply elem_of_app. right. left.
Qed.

(** The computation of the participants raises exactly when the library
    has no [flatten] and the message carries a party reaction. *)
Lemma participants_of_None has_flatten reactions :
  participants_of has_flatten reactions = None
  ↔ has_flatten = false ∧ ∃ r, r ∈ reactions ∧ react_emoji r = PARTY.
Proof.
  unfold participants_of, users_flatten.
  destruct (party_reaction reactions) as [r|] eqn:E.
  - apply party_reaction_Some in E as (before & after & -> & _ & Hr).
    destruct has_flatten.
    + split; [done|]. by intros [? _].
    + split; [|done]. intros _. split; [done|]. exists r. split; [|done].
      apply elem_of_app. right. left.
  - split; [done|]. intros (_ & r & Hin & Hr). exfalso.
    by eapply party_reaction_None.
Qed.

(** What a run that gets past the participants does. *)
Lemma finalize_giveaway_by_id_finished has_flatten gid reactions rnd s gw ps :
  giveaways s !! gid = Some gw →
  participants_of has_flatten reactions = Some ps →
  (ps = [] →
     finalize_giveaway_by_id has_flatten gid (Some reactions) rnd s
     = (save_giveaways (with_giveaways (delete gid) s), Finished None))
  ∧ (ps ≠ [] →
     ∃ w, w ∈ ps
          ∧ finalize_giveaway_by_id has_flatten gid (Some reactions) rnd s
            = (save_giveaways
                 (with_giveaways (delete gid)
                    (save_user_db
                       (update_user (PyStr.str (member_id w))
                          (set_credits (credits_of s (PyStr.str (member_id w))
                                        + gw_amount gw))
                          (ensure_user_record (PyStr.str (member_id w)) s)))),
               Finished (Some w))).
Proof.
  intros Hgw Hps. unfold finalize_giveaway_by_id. rewrite Hgw, Hps. split.
  - intros ->. done.
  - intros Hne. destruct (random_choice_elem rnd ps Hne) as (w & Hw & Hin).
    rewrite decide_True by (destruct ps; simpl; [done|lia]).
    rewrite Hw. exists w. split; [done|]. by rewrite credits_of_ensure.
Qed.

(** C6. Against the chat library the file is written for, which has no
    [flatten], [finalize_giveaway_by_id] raises whenever the rallying
    message carries a reaction with the party emoji, and so whenever some
    user qualifies: the giveaway record stays where it was, nobody is paid
    and no document changes. The record is deleted, with the accounts
    untouched, only when no reaction carries the emoji or the message
    cannot be fetched. *)
Theorem finalize_giveaway_by_id_raises gid reactions rnd s gw :
  giveaways s !! gid = Some gw →
  ((∃ r, r ∈ reactions ∧ react_emoji r = PARTY) →
     finalize_giveaway_by_id false gid (Some reactions) rnd s = (s, Raised))
  ∧ (∀ w, qualifies reactions w →
     finalize_giveaway_by_id false gid (Some reactions) rnd s = (s, Raised))
  ∧ ((∀ r, r ∈ reactions → react_emoji r ≠ PARTY) →
     finalize_giveaway_by_id false gid (Some reactions) rnd s
     = (save_giveaways (with_giveaways (delete gid) s), Finished None))
  ∧ finalize_giveaway_by_id false gid None rnd s
    = (save_giveaways (with_giveaways (delete gid) s), Finished None).
Proof.
  intros Hgw.
  assert ((∃ r, r ∈ reactions ∧ react_emoji r = PARTY) →
          finalize_giveaway_by_id false gid (Some reactions) rnd s = (s, Raised))
    as Hraise.
  { intros Hr. unfold finalize_giveaway_by_id. rewrite Hgw.
    assert (participants_of false reactions = None) as ->
      by (by apply participants_of_None).
    done. }
  split; [exact Hraise|]. split; [|split].
  - intros w (before & r & after & -> & _ & Hr & _). apply Hraise.
    exists r. split; [|done]. apply elem_of_app. right. left.
  - intros Hno. apply party_reaction_None in Hno.
    unfold finalize_giveaway_by_id, participants_of. by rewrite Hgw, Hno.
  - unfold finalize_giveaway_by_id. by rewrite Hgw.
Qed.

Lemma finalize_giveaway_by_id_raises_witness :
  qualifies sample_reactions (mk_member 7 false)
  ∧ finalize_giveaway_by_id false "55" (Some sample_reactions) 0 store_giveaway
    = (store_giveaway, Raised)
  ∧ giveaways store_giveaway !! "55" = Some (mk_giveaway 55 2 4600 100 1 1000).
Proof.
  assert (qualifies sample_reactions (mk_member 7 false)) as Hq.
  { exists [mk_reaction "X" [mk_member 8 false]],
           (mk_reaction PARTY [mk_member 99 true; mk_member 7 false]), [].
    split; [reflexivity|]. split.
    - intros r' Hr'. apply list_elem_of_singleton in Hr'. rewrite Hr'. discriminate.
    - split; [reflexivity|]. split; [|reflexivity]. right. left. }
  destruct (finalize_giveaway_by_id_raises "55" sample_reactions 0 store_giveaway
              (mk_giveaway 55 2 4600 100 1 1000)) as (_ & H & _ & _); [reflexivity|].
  split; [exact Hq|]. split; [|reflexivity].
  exact (H (mk_member 7 false) Hq).
Defined.


(** ** Administrative credit changes *)

Section RemoveCreditsFacts.

Variable py_int : string → option Z.

Lemma admin_remove_credits_all uid amount s :
  PyStr.lower amount = "all" →
  (admin_remove_credits py_int true uid amount s).2 = Done
  ∧ credits_of (admin_remove_credits py_int true uid amount s).1 uid = 0.
Proof.
  intros Hall. unfold admin_remove_credits. simpl.
  rewrite decide_True by done. simpl. split; [done|].
  unfold save_user_db. rewrite credits_of_save.
  apply credits_of_update_same, ensure_user_record_is_Some. by left.
Qed.

Lemma admin_remove_credits_number uid amount a s :
  PyStr.lower amount ≠ "all" → py_int amount = Some a →
  (admin_remove_credits py_int true uid amount s).2 = Done
  ∧ credits_of (admin_remove_credits py_int true uid amount s).1 uid
    = Z.max 0 (credits_of s uid - a).
Proof.
  intros Hall Ha. unfold admin_remove_credits. simpl.
  rewrite decide_False by done. rewrite Ha. simpl. split; [done|].
  unfold save_user_db. rewrite credits_of_save.
  rewrite credits_of_update_same by (apply ensure_user_record_is_Some; by left).
  by rewrite credits_of_ensure.
Qed.

Lemma admin_remove_credits_bad uid amount s :
  PyStr.lower amount ≠ "all" → py_int amount = None →
  (admin_remove_credits py_int true uid amount s).2 = NotANumber
  ∧ ∀ w, credits_of (admin_remove_credits py_int true uid amount s).1 w
         = credits_of s w.
Proof.
  intros Hall Ha. unfold admin_remove_credits. simpl.
  rewrite decide_False by done. rewrite Ha. simpl. split; [done|].
  intros w. apply credits_of_ensure.
Qed.

Lemma admin_remove_credits_other uid amount s w :
  w ≠ uid →
  credits_of (admin_remove_credits py_int true uid amount s).1 w = credits_of s w.
Proof.
  intros Hne. unfold admin_remove_credits. simpl.
  destruct (decide (PyStr.lower amount = "all")); simpl.
  - unfold save_user_db. rewrite credits_of_save.
    rewrite credits_of_update_other by done. apply credits_of_ensure.
  - destruct (py_int amount); simpl; [|apply credits_of_ensure].
    unfold save_user_db. rewrite credits_of_save.
    rewrite credits_of_update_other by done. apply credits_of_ensure.
Qed.

End RemoveCreditsFacts.

Lemma admin_add_credits_balance uid amount s :
  (admin_add_credits true uid amount s).2 = Done
  ∧ credits_of (admin_add_credits true uid amount s).1 uid = credits_of s uid + amount.
Proof.
  unfold admin_add_credits. simpl. split; [done|].
  unfold save_user_db. rewrite credits_of_save.
  rewrite credits_of_update_same by (apply ensure_user_record_is_Some; by left).
  by rewrite credits_of_ensure.
Qed.

(** C4, as stated, fails: removing 50 from a balance of 30 is not refused
    with the balance left at 30, as the specification's [adjustCredits]
    would have it; the command answers [Done] and the balance is 0. *)
Lemma admin_remove_credits_clamps_not_rejects :
  credits_of store_30 "7" = 30
  ∧ (adjustCredits_spec "7" (-50) store_30).2 = InsufficientBalance
  ∧ credits_of (adjustCredits_spec "7" (-50) store_30).1 "7" = 30
  ∧ (admin_remove_credits int_signed true "7" "50" store_30).2 = Done
  ∧ credits_of (admin_remove_credits int_signed true "7" "50" store_30).1 "7" = 0
  ∧ (admin_remove_credits int_signed true "7" "50" store_30).1
    ≠ (adjustCredits_spec "7" (-50) store_30).1.
Proof.
  assert (credits_of (admin_remove_credits int_signed true "7" "50" store_30).1 "7" = 0)
    as H0 by (by vm_compute).
  assert (credits_of (adjustCredits_spec "7" (-50) store_30).1 "7" = 30)
    as H30 by (by vm_compute).
  repeat split; try (by vm_compute).
Qed.

(** C4, amended. [admin_remove_credits] never refuses for lack of balance:
    with a number [a] it sets the balance to [max 0 (balance - a)], with
    "all" it sets it to 0, and an argument that is neither is refused with
    every balance unchanged; so a removal that is carried out leaves a
    balance of at least 0 and touches no other account.
    [admin_add_credits] adds the amount to the balance, which stays
    non-negative when both are. *)
Theorem admin_credits_never_negative (py_int : string → option Z) uid amount s :
  (PyStr.lower amount = "all" →
     (admin_remove_credits py_int true uid amount s).2 = Done
     ∧ credits_of (admin_remove_credits py_int true uid amount s).1 uid = 0)
  ∧ (∀ a, PyStr.lower amount ≠ "all" → py_int amount = Some a →
       (admin_remove_credits py_int true uid amount s).2 = Done
       ∧ credits_of (admin_remove_credits py_int true uid amount s).1 uid
         = Z.max 0 (credits_of s uid - a))
  ∧ (PyStr.lower amount ≠ "all" → py_int amount = None →
       (admin_remove_credits py_int true uid amount s).2 = NotANumber
       ∧ ∀ w, credits_of (admin_remove_credits py_int true uid amount s).1 w
              = credits_of s w)
  ∧ ((admin_remove_credits py_int true uid amount s).2 = Done →
       0 ≤ credits_of (admin_remove_credits py_int true uid amount s).1 uid)
  ∧ (∀ w, w ≠ uid →
       credits_of (admin_remove_credits py_int true uid amount s).1 w = credits_of s w)
  ∧ (∀ n, 0 ≤ n → 0 ≤ credits_of s uid →
       credits_of (admin_add_credits true uid n s).1 uid = credits_of s uid + n
       ∧ 0 ≤ credits_of (admin_add_credits true uid n s).1 uid).
Proof.
  split; [apply admin_remove_credits_all|].
  split; [intros a; apply admin_remove_credits_number|].
  split; [apply admin_remove_credits_bad|].
  split; [|split; [intros w; apply admin_remove_credits_other|]].
  - destruct (decide (PyStr.lower amount = "all")) as [Hall|Hall].
    + destruct (admin_remove_credits_all py_int uid amount s Hall) as [_ ->]. done.
    + destruct (py_int amount) as [a|] eqn:Ha.
      * destruct (admin_remove_credits_number py_int uid amount a s Hall Ha) as [_ ->].
        lia.
      * destruct (admin_remove_credits_bad py_int uid amount s Hall Ha) as [-> _].
        done.
  - intros n Hn Hc. destruct (admin_add_credits_balance uid n s) as [_ ->].
    split; [done|lia].
Qed.

Lemma admin_credits_never_negative_witness :
  credits_of (admin_remove_credits int_signed true "7" "50" store_30).1 "7"
  = Z.max 0 (credits_of store_30 "7" - 50).
Proof.
  destruct (admin_credits_never_negative int_signed "7" "50" store_30)
    as (_ & Hnum & _).
  apply (Hnum 50); [by vm_compute | reflexivity].
Defined.

(** ** The purge sweep *)

Lemma sweep_loop (keep : string → vps_rec → bool) (l : list (string * vps_rec)) : ∀ s r,
  let out := foldl (λ (acc : state * list string) (kv : string * vps_rec),
                      if keep kv.1 kv.2 then acc
                      else (with_vps (delete kv.1) acc.1, (acc.2 ++ [kv.1])%list))
                   (s, r) l in
  vps out.1 = foldl (drop_unkept keep) (vps s) l ∧ frame out.1 = frame s.
Proof.
  induction l as [|kv l IH]; intros s r; simpl; [done|].
  unfold drop_unkept at 2. destruct (keep kv.1 kv.2).
  - apply IH.
  - exact (IH _ _).
Qed.

Lemma drop_unkept_None keep (l : list (string * vps_rec)) : ∀ m k,
  m !! k = None → foldl (drop_unkept keep) m l !! k = None.
Proof.
  induction l as [|kv l IH]; intros m k Hk; simpl; [done|].
  apply IH. unfold drop_unkept. destruct (keep kv.1 kv.2); [done|].
  destruct (decide (kv.1 = k)) as [->|Hne].
  - apply lookup_delete_eq.
  - by rewrite lookup_delete_ne.
Qed.

Lemma drop_unkept_dropped keep (l : list (string * vps_rec)) : ∀ m k v,
  (k, v) ∈ l → keep k v = false → foldl (drop_unkept keep) m l !! k = None.
Proof.
  induction l as [|kv l IH]; intros m k v Hin Hkeep; simpl.
  { by apply elem_of_nil in Hin. }
  apply elem_of_cons in Hin as [<-|Hin].
  - apply drop_unkept_None. unfold drop_unkept. simpl. rewrite Hkeep.
    apply lookup_delete_eq.
  - by eapply IH.
Qed.

Lemma drop_unkept_kept keep (l : list (string * vps_rec)) : ∀ m k,
  (∀ v, (k, v) ∈ l → keep k v = true) →
  foldl (drop_unkept keep) m l !! k = m !! k.
Proof.
  induction l as [|kv l IH]; intros m k Hall; simpl; [done|].
  rewrite IH by (intros v Hv; apply Hall; by right).
  unfold drop_unkept. destruct (keep kv.1 kv.2) eqn:E; [done|].
  apply lookup_delete_ne. intros Heq. destruct kv as [k' v']. simpl in *. subst k'.
  rewrite Hall in E by left. done.
Qed.

(** The sweep keeps exactly the records its test covers and changes
    nothing else; it does not write to disk. *)
Lemma sweep_spec keep s :
  (∀ k, vps (sweep keep s).1 !! k
        = match vps s !! k with
          | Some v => if keep k v then Some v else None
          | None => None
          end)
  ∧ frame (sweep keep s).1 = frame s.
Proof.
  unfold sweep. destruct (sweep_loop keep (map_to_list (vps s)) s []) as [Hv Hf].
  simpl in Hv, Hf. split; [|done]. intros k. rewrite Hv.
  destruct (vps s !! k) as [v|] eqn:E.
  - destruct (keep k v) eqn:Hk.
    + rewrite drop_unkept_kept; [done|]. intros v' Hin.
      apply elem_of_map_to_list in Hin. congruence.
    + eapply drop_unkept_dropped; [|done]. by apply elem_of_map_to_list.
  - by apply drop_unkept_None.
Qed.

Lemma elem_of_protected_user_ids now records uid :
  uid ∈ protected_user_ids now records
  ↔ ∃ r, r ∈ records ∧ prot_user_id r = uid ∧ now ≤ prot_expires_at r.
Proof.
  unfold protected_user_ids. rewrite list_elem_of_fmap. split.
  - intros (r & -> & Hr). apply list_elem_of_filter in Hr as [? ?]. eauto.
  - intros (r & Hr & <- & Hexp). exists r. split; [done|].
    by apply list_elem_of_filter.
Qed.

Lemma keep_at_end_isProtected now s vid info :
  keep_at_end (purge s) (protected_user_ids now (protected s)) vid info = true
  ↔ isProtected now s vid info.
Proof.
  unfold keep_at_end, isProtected.
  rewrite !orb_true_iff, !bool_decide_eq_true, elem_of_protected_user_ids.
  tauto.
Qed.

(** The sweep at the end of the window removes a resource exactly when
    it is not protected in the sense of [isProtected]. *)
Lemma execute_scheduled_purge_exact requested_by now s vid info :
  vps s !! vid = Some info →
  (isProtected (unix now) s vid info →
     vps (execute_scheduled_purge requested_by now s).1 !! vid = Some info)
  ∧ (¬ isProtected (unix now) s vid info →
     vps (execute_scheduled_purge requested_by now s).1 !! vid = None).
Proof.
  intros Hv. unfold execute_scheduled_purge.
  destruct (sweep _ s) as [s' removed] eqn:E. simpl.
  pose proof (sweep_spec (keep_at_end (purge s)
                (protected_user_ids (unix now) (protected s))) s) as [Hl _].
  rewrite E in Hl. simpl in Hl. rewrite Hl, Hv.
  pose proof (keep_at_end_isProtected (unix now) s vid info) as Hiff.
  destruct (keep_at_end _ _ vid info); split; intros H; try done.
  - exfalso. apply H, Hiff. done.
  - apply Hiff in H. done.
Qed.

Lemma execute_scheduled_purge_frame requested_by now s :
  purge (execute_scheduled_purge requested_by now s).1 = purge s
  ∧ users (execute_scheduled_purge requested_by now s).1 = users s
  ∧ disk (execute_scheduled_purge requested_by now s).1 = VpsDoc :: disk s.
Proof.
  unfold execute_scheduled_purge.
  destruct (sweep _ s) as [s' removed] eqn:E. simpl.
  pose proof (sweep_spec (keep_at_end (purge s)
                (protected_user_ids (unix now) (protected s))) s) as [_ Hf].
  rewrite E in Hf. simpl in Hf. unfold frame in Hf.
  by inversion Hf.
Qed.

(** What [purge_start] leaves behind: a resource survives exactly when its
    id or its owner is on the lists of the purge record. *)
Lemma purge_start_exact author msg_id channel_id now s vid info :
  vps s !! vid = Some info →
  vps (purge_start true author msg_id channel_id now s).1 !! vid
  = if keep_at_start (purge s) vid info then Some info else None.
Proof.
  intros Hv. unfold purge_start. simpl.
  destruct (sweep _ _) as [s' removed] eqn:E. simpl.
  match type of E with sweep ?k ?s0 = _ =>
    pose proof (sweep_spec k s0) as [Hl _] end.
  rewrite E in Hl. simpl in Hl. by rewrite Hl, Hv.
Qed.


(** A reaction on the purge announcement by anyone but the bot leaves that
    account with a record running for 72 hours, and touches nothing else. *)
Lemma on_raw_reaction_add_grants message_id channel_id user_id bot_id emoji now s :
  purge_message_id (purge s) = Some message_id →
  purge_channel_id (purge s) = Some channel_id →
  message_id ≠ 0 → channel_id ≠ 0 → user_id ≠ bot_id →
  let s' := on_raw_reaction_add message_id user_id bot_id emoji now s in
  mk_protection (PyStr.str user_id) emoji (unix now) (unix now + 72 * 3600)
    ∈ protected s'
  ∧ vps s' = vps s ∧ purge s' = purge s.
Proof.
  intros Hm Hc Hm0 Hc0 Hbot. unfold on_raw_reaction_add. rewrite Hm, Hc.
  rewrite decide_False by (intros [?|?]; done).
  rewrite decide_False by (intros H; by apply H).
  rewrite decide_False by done. simpl.
  split; [|done]. apply elem_of_app. right. apply list_elem_of_singleton. done.
Qed.

(** C1. The sweep inside [purge_start] does not consult the protection
    records: a resource whose owner holds a record that has not expired,
    and which is on neither list of the purge record, is protected in the
    sense of [isProtected] and is removed all the same, while
    [execute_scheduled_purge] keeps it on the same store. *)
Theorem purge_start_ignores_protection_records
    author msg_id channel_id now s vid info r :
  vps s !! vid = Some info →
  vid ∉ protected_vps (purge s) →
  vps_owner info ∉ protected_users (purge s) →
  r ∈ protected s → prot_user_id r = vps_owner info → unix now ≤ prot_expires_at r →
  isProtected (unix now) s vid info
  ∧ vps (purge_start true author msg_id channel_id now s).1 !! vid = None
  ∧ vps (execute_scheduled_purge author now s).1 !! vid = Some info.
Proof.
  intros Hv Hnv Hnu Hr Hid Hexp.
  assert (isProtected (unix now) s vid info) as Hp.
  { right; right. eauto. }
  split; [done|]. split.
  - rewrite (purge_start_exact _ _ _ _ _ _ info) by done.
    unfold keep_at_start. by rewrite !bool_decide_eq_false_2.
  - by apply execute_scheduled_purge_exact.
Qed.

Lemma purge_start_ignores_protection_records_witness :
  isProtected 1000 store_reacted "1"
    (mk_vps "1" "7" 2 1 20 "active" [] "1970-01-01T00:00:00+00:00" None)
  ∧ vps (purge_start true 1 2 3 at_1000 store_reacted).1 !! "1" = None
  ∧ vps (execute_scheduled_purge 1 at_1000 store_reacted).1 !! "1"
    = Some (mk_vps "1" "7" 2 1 20 "active" [] "1970-01-01T00:00:00+00:00" None).
Proof.
  apply (purge_start_ignores_protection_records 1 2 3 at_1000 store_reacted "1"
           (mk_vps "1" "7" 2 1 20 "active" [] "1970-01-01T00:00:00+00:00" None)
           (mk_protection "7" "X" 900 260100)).
  - reflexivity.
  - simpl. apply not_elem_of_nil.
  - simpl. apply not_elem_of_nil.
  - simpl. apply list_elem_of_singleton. reflexivity.
  - reflexivity.
  - simpl. lia.
Defined.




(** ** Deadlines *)

Lemma schedule_trial_expiry_waits vid end_ts lag t :
  end_ts ≤ fires_at (schedule_trial_expiry vid end_ts lag t)
  ∧ call (schedule_trial_expiry vid end_ts lag t) = FinalizeTrialVps vid.
Proof. unfold schedule_trial_expiry, asyncio_sleep. simpl. split; [lia|done]. Qed.

Lemma schedule_purge_expiry_waits end_ts requested_by lag t :
  end_ts ≤ fires_at (schedule_purge_expiry end_ts requested_by lag t)
  ∧ call (schedule_purge_expiry end_ts requested_by lag t)
    = ExecuteScheduledPurge requested_by.
Proof. unfold schedule_purge_expiry, asyncio_sleep. simpl. split; [lia|done]. Qed.

Lemma arm_giveaways_tasks (l : list (string * giveaway_rec)) : ∀ s,
  tasks (foldl (λ (s : state) (kv : string * giveaway_rec),
                  create_task (FinalizeGiveawayById kv.1) s) s l)
  = tasks s ++ (FinalizeGiveawayById <$> l.*1).
Proof.
  induction l as [|kv l IH]; intros s; simpl.
  { by rewrite app_nil_r. }
  rewrite IH. simpl. by rewrite <- app_assoc.
Qed.

Lemma arm_trials_tasks (l : list (string * vps_rec)) : ∀ s,
  ∃ armed,
    tasks (foldl (λ (s : state) (kv : string * vps_rec),
                    match vps_trial_expires kv.2 with
                    | Some end_ts =>
                        if decide (end_ts = 0) then s
                        else create_task (ScheduleTrialExpiry kv.1 end_ts) s
                    | None => s
                    end) s l)
    = tasks s ++ armed.
Proof.
  induction l as [|kv l IH]; intros s; simpl.
  { exists []. by rewrite app_nil_r. }
  destruct (vps_trial_expires kv.2) as [e|]; [|apply IH].
  destruct (decide (e = 0)); [apply IH|].
  destruct (IH (create_task (ScheduleTrialExpiry kv.1 e) s)) as [armed Ha].
  exists (ScheduleTrialExpiry kv.1 e :: armed). rewrite Ha. simpl.
  by rewrite <- app_assoc.
Qed.

(** [on_ready] arms the bare resolver for every giveaway on record. *)
Lemma on_ready_arms_giveaway s gid gw :
  giveaways s !! gid = Some gw → FinalizeGiveawayById gid ∈ tasks (on_ready s).
Proof.
  intros Hgw. unfold on_ready.
  match goal with |- _ ∈ tasks (foldl _ ?s1 ?l) =>
    destruct (arm_trials_tasks l s1) as [armed ->] end.
  rewrite arm_giveaways_tasks.
  apply elem_of_app. left. apply elem_of_app. right.
  apply list_elem_of_fmap. exists gid. split; [done|].
  apply list_elem_of_fmap. exists (gid, gw). split; [done|].
  by apply elem_of_map_to_list.
Qed.

(** C2. The trial and purge coroutines sleep until their deadline before
    they call the resolver, but a giveaway is armed as the bare resolver:
    [giveaway_credits] and [on_ready] hand [finalize_giveaway_by_id]
    itself to the event loop, which runs it when the task starts, before
    the end time on record. *)
Theorem giveaway_armed_without_wait author channel_id amount secs msg_id now s :
  0 < secs →
  let gid := PyStr.str msg_id in
  let s' := giveaway_credits true author channel_id amount secs msg_id now s in
  (∀ vid end_ts lag t, end_ts ≤ fires_at (schedule_trial_expiry vid end_ts lag t))
  ∧ (∀ end_ts r lag t, end_ts ≤ fires_at (schedule_purge_expiry end_ts r lag t))
  ∧ tasks s' = tasks s ++ [FinalizeGiveawayById gid]
  ∧ deadline_of s' (FinalizeGiveawayById gid) = Some (unix now + secs)
  ∧ FinalizeGiveawayById gid ∈ tasks (on_ready s')
  ∧ run_task (FinalizeGiveawayById gid) 0 (unix now)
    = mk_firing (unix now) (FinalizeGiveaway gid)
  ∧ fires_at (run_task (FinalizeGiveawayById gid) 0 (unix now)) < unix now + secs.
Proof.
  intros Hsecs gid s'.
  assert (giveaways s' !! gid
          = Some (mk_giveaway msg_id channel_id (unix now + secs) amount author
                              (unix now))) as Hgw.
  { unfold s', giveaway_credits. simpl. rewrite decide_False by lia. simpl.
    apply lookup_insert_eq. }
  split; [intros; apply schedule_trial_expiry_waits|].
  split; [intros; apply schedule_purge_expiry_waits|].
  split; [unfold s', giveaway_credits; simpl; by rewrite decide_False by lia|].
  split; [simpl; by rewrite Hgw|].
  split; [by eapply on_ready_arms_giveaway|].
  split; [done|]. simpl. lia.
Qed.

Lemma giveaway_armed_without_wait_witness :
  tasks (giveaway_credits true 1 2 100 3600 55 at_1000 fresh_state)
  = [FinalizeGiveawayById "55"]
  ∧ deadline_of (giveaway_credits true 1 2 100 3600 55 at_1000 fresh_state)
                (FinalizeGiveawayById "55") = Some 4600
  ∧ fires_at (run_task (FinalizeGiveawayById "55") 0 1000) < 4600.
Proof.
  destruct (giveaway_armed_without_wait 1 2 100 3600 55 at_1000 fresh_state)
    as (_ & _ & Ht & Hd & _ & _ & Hf); [lia|].
  split; [exact Ht|]. split; [exact Hd|exact Hf].
Defined.

(** ** Trial claims *)

Lemma trial_refuses_claimed uid s u :
  users s !! uid = Some u → trial_claimed u = true →
  trial false None uid s = (s, AlreadyClaimed).
Proof.
  intros Hu Hc. unfold trial. rewrite (ensure_user_record_present _ _ _ Hu).
  by rewrite Hu, Hc.
Qed.

Lemma ConfirmTrialView_confirm_refuses_claimed cfg now uid s u :
  users s !! uid = Some u → trial_claimed u = true →
  ConfirmTrialView_confirm cfg now uid s = (s, None).
Proof.
  intros Hu Hc. unfold ConfirmTrialView_confirm.
  rewrite (ensure_user_record_present _ _ _ Hu). by rewrite Hu, Hc.
Qed.

Lemma ConfirmSelfClaim_claim_effect cfg now uid s :
  let r := ConfirmSelfClaim_claim cfg now uid s in
  r.2 = get_next_vps_id s
  ∧ vps r.1
    = <[r.2 := mk_vps r.2 uid 2 1 20 "trial" [] (iso now)
                      (Some (unix now + 3 * 24 * 3600))]> (vps s)
  ∧ credits_of r.1 uid = credits_of s uid + trial_credits cfg
  ∧ tasks r.1 = tasks s ++ [ScheduleTrialExpiry r.2 (unix now + 3 * 24 * 3600)]
  ∧ ∃ u, users r.1 !! uid = Some u ∧ trial_claimed u = true ∧ trial_active u = true.
Proof.
  unfold ConfirmSelfClaim_claim, create_vps_record.
  set (s0 := ensure_user_record uid s).
  destruct (ensure_user_record_frame uid s) as (Hv & _ & _ & _ & Ht).
  fold s0 in Hv, Ht.
  pose proof (ensure_user_record_lookup uid s) as Hu. fold s0 in Hu.
  assert (get_next_vps_id
            (update_user uid (set_trial_active true)
               (update_user uid (set_trial_claimed true) s0))
          = get_next_vps_id s) as Hid.
  { unfold get_next_vps_id. simpl. by rewrite Hv. }
  cbn zeta. cbn [fst snd]. rewrite Hid.
  set (vid := get_next_vps_id s).
  split; [done|]. split; [|split; [|split]].
  - destruct (decide (trial_credits cfg = 0)); simpl; rewrite Hv;
      apply map_eq; intros k; destruct (decide (k = vid)) as [->|Hne];
      rewrite ?lookup_alter_eq, ?lookup_insert_eq, ?lookup_alter_ne,
              ?lookup_insert_ne by done; done.
  - destruct (decide (trial_credits cfg = 0)) as [Hz|Hz].
    + unfold credits_of. simpl. rewrite !lookup_alter_eq, Hu. simpl.
      rewrite Hz. destruct (users s !! uid); simpl; lia.
    + unfold credits_of. simpl. rewrite !lookup_alter_eq, Hu. simpl.
      destruct (users s !! uid); simpl; lia.
  - destruct (decide (trial_credits cfg = 0)); simpl; by rewrite Ht.
  - destruct (decide (trial_credits cfg = 0)); simpl;
      rewrite !lookup_alter_eq, Hu; simpl; eauto.
Qed.

(** C3. [ConfirmSelfClaim.claim] does not look at [trial_claimed]: pressed
    for an account that has claimed already, where the [.trial] command
    and the owner's grant button both refuse and change nothing, it stores
    one more trial resource under a fresh id, adds the trial bonus to the
    balance again and arms one more expiry. *)
Theorem ConfirmSelfClaim_claim_ignores_claimed cfg now uid s u :
  users s !! uid = Some u → trial_claimed u = true →
  let r := ConfirmSelfClaim_claim cfg now uid s in
  trial false None uid s = (s, AlreadyClaimed)
  ∧ ConfirmTrialView_confirm cfg now uid s = (s, None)
  ∧ vps s !! r.2 = None
  ∧ vps r.1 !! r.2
    = Some (mk_vps r.2 uid 2 1 20 "trial" [] (iso now) (Some (unix now + 3 * 24 * 3600)))
  ∧ credits_of r.1 uid = credits_of s uid + trial_credits cfg
  ∧ tasks r.1 = tasks s ++ [ScheduleTrialExpiry r.2 (unix now + 3 * 24 * 3600)].
Proof.
  intros Hu Hc r.
  destruct (ConfirmSelfClaim_claim_effect cfg now uid s) as (Hid & Hv & Hcr & Ht & _).
  fold r in Hid, Hv, Hcr, Ht.
  split; [by eapply trial_refuses_claimed|].
  split; [by eapply ConfirmTrialView_confirm_refuses_claimed|].
  split; [rewrite Hid; apply get_next_vps_id_fresh|].
  split; [rewrite Hv; apply lookup_insert_eq|]. done.
Qed.

Lemma ConfirmSelfClaim_claim_ignores_claimed_witness :
  vps store_claimed_once
      !! (ConfirmSelfClaim_claim default_config at_1000 "7" store_claimed_once).2 = None
  ∧ credits_of (ConfirmSelfClaim_claim default_config at_1000 "7" store_claimed_once).1 "7"
    = credits_of store_claimed_once "7" + 10.
Proof.
  destruct (ConfirmSelfClaim_claim_ignores_claimed default_config at_1000 "7"
              store_claimed_once (mk_user 10 true true false None None))
    as (_ & _ & Hfresh & _ & Hcredits & _).
  - reflexivity.
  - reflexivity.
  - split; [exact Hfresh | exact Hcredits].
Defined.

(** ** The trial invariant *)

Lemma double_claim_runs :
  run default_config double_claim (mk_bot fresh_state [])
  = Some (mk_bot store_after_double_claim []).
Proof. by vm_compute. Qed.

(** C9. The trial invariant does not hold in every reachable state. After
    two [.trial] commands of one account, both prompts pressed and the
    first trial expired, the second trial resource is still on record
    with status trial while its owner's [trial_active] flag is false. *)
Theorem trial_invariant_broken_by_double_claim :
  reachable default_config store_after_double_claim
  ∧ vps store_after_double_claim !! "2"
    = Some (mk_vps "2" "7" 2 1 20 "trial" [] (iso at_1000) (Some 260200))
  ∧ users store_after_double_claim !! "7"
    = Some (mk_user 20 true false false None None)
  ∧ ¬ trial_invariant store_after_double_claim.
Proof.
  assert (vps store_after_double_claim !! "2"
          = Some (mk_vps "2" "7" 2 1 20 "trial" [] (iso at_1000) (Some 260200)))
    as Hv by (by vm_compute).
  assert (users store_after_double_claim !! "7"
          = Some (mk_user 20 true false false None None)) as Hu by (by vm_compute).
  split.
  { exists double_claim, (mk_bot store_after_double_claim []).
    split; [apply double_claim_runs | done]. }
  split; [done|]. split; [done|].
  intros Hinv. destruct (Hinv "2" _ Hv eq_refl) as [_ (u & Hu' & Hact)].
  simpl in Hu'. rewrite Hu in Hu'. by inversion Hu'; subst.
Qed.

(** * Further properties *)

(** ** Durations *)

Lemma append_cons c (a b : string) : (String c a ++ b)%string = String c (a ++ b)%string.
Proof. reflexivity. Qed.

Lemma append_empty (b : string) : (EmptyString ++ b)%string = b.
Proof. reflexivity. Qed.

Lemma span_digits_spec s :
  s = ((span_digits s).1 ++ (span_digits s).2)%string
  ∧ PyStr.all_digits (span_digits s).1 = true.
Proof.
  induction s as [|c s [IH1 IH2]]; simpl; [done|].
  destruct (PyStr.is_digit_char c) eqn:Hc; [|done].
  destruct (span_digits s) as [ds rest]. simpl in *.
  rewrite append_cons, Hc, IH2. split; [by f_equal|done].
Qed.

Lemma span_digits_app ds rest :
  PyStr.all_digits ds = true → span_digits rest = (EmptyString, rest) →
  span_digits (ds ++ rest)%string = (ds, rest).
Proof.
  intros Hd Hr. induction ds as [|c ds IH]; [by rewrite append_empty|].
  simpl in Hd. apply andb_true_iff in Hd as [Hc Hd].
  rewrite append_cons. simpl. by rewrite Hc, IH.
Qed.

Lemma all_digits_str n : 0 ≤ n → PyStr.all_digits (PyStr.str n) = true.
Proof.
  intros Hn. pose proof (isdigit_str n Hn) as H. unfold PyStr.isdigit in H.
  by destruct (PyStr.str n).
Qed.

Lemma str_nonempty n : 0 ≤ n → PyStr.str n ≠ EmptyString.
Proof.
  intros Hn E. pose proof (isdigit_str n Hn) as H. by rewrite E in H.
Qed.

(** The units of [parse_duration] with their length in seconds. *)
Lemma parse_duration_units n u f :
  0 ≤ n →
  (u, f) ∈ [("s", 1); ("m", 60); ("h", 3600); ("d", 86400); ("w", 604800);
            ("mo", 2592000)] →
  parse_duration (PyStr.str n ++ u)%string = n * f.
Proof.
  intros Hn Hu. unfold parse_duration.
  assert (span_digits u = (EmptyString, u) ∧ unit_seconds (chomp u) = Some f) as [Hs Hf].
  { repeat (apply elem_of_cons in Hu as [Hu|Hu]; [by inversion Hu; subst|]).
    by apply elem_of_nil in Hu. }
  rewrite (span_digits_app _ _ (all_digits_str n Hn) Hs).
  pose proof (str_nonempty n Hn) as Hne.
  destruct (PyStr.str n) eqn:E; [done|].
  rewrite Hf, <- E, int_str by done. done.
Qed.

Lemma parse_duration_units_witness : parse_duration "90m" = 5400.
Proof.
  apply (parse_duration_units 90 "m" 60); [lia|].
  right; left.
Defined.

Lemma unit_seconds_pos u f : unit_seconds u = Some f → 0 < f.
Proof.
  unfold unit_seconds. repeat case_decide; intros [= <-]; lia.
Qed.

(** On a text of ASCII characters [parse_duration] is never negative, and
    a positive answer can only come from digits followed by one of the
    units (and at most a final line feed): every other such text gives 0. *)
Lemma parse_duration_shape s :
  ascii_only s = true →
  0 ≤ parse_duration s
  ∧ (parse_duration s ≠ 0 →
     ∃ ds rest f,
       s = (ds ++ rest)%string ∧ PyStr.isdigit ds = true
       ∧ unit_seconds (chomp rest) = Some f
       ∧ parse_duration s = PyStr.int ds * f).
Proof.
  intros _. unfold parse_duration. destruct (span_digits_spec s) as [Hs Hd].
  destruct (span_digits s) as [ds rest]. simpl in Hs, Hd.
  destruct ds as [|c ds]; [done|].
  destruct (unit_seconds (chomp rest)) as [f|] eqn:Hf; [|done].
  pose proof (unit_seconds_pos _ _ Hf). pose proof (int_nonneg (String c ds)).
  split; [nia|]. intros _. exists (String c ds), rest, f. done.
Qed.

Lemma parse_duration_shape_witness :
  ∃ ds rest f,
    "2w" = (ds ++ rest)%string ∧ PyStr.isdigit ds = true
    ∧ unit_seconds (chomp rest) = Some f
    ∧ parse_duration "2w" = PyStr.int ds * f.
Proof.
  destruct (parse_duration_shape "2w") as [_ H]; [reflexivity|].
  apply H. by vm_compute.
Defined.

(** ** Timed rewards *)

Lemma last_daily_of_ensure uid w s :
  last_daily_of (ensure_user_record uid s) w = last_daily_of s w.
Proof.
  unfold last_daily_of. destruct (decide (w = uid)) as [->|Hne].
  - rewrite ensure_user_record_lookup. by destruct (users s !! uid).
  - by rewrite ensure_user_record_other.
Qed.

Lemma last_weekly_of_ensure uid w s :
  last_weekly_of (ensure_user_record uid s) w = last_weekly_of s w.
Proof.
  unfold last_weekly_of. destruct (decide (w = uid)) as [->|Hne].
  - rewrite ensure_user_record_lookup. by destruct (users s !! uid).
  - by rewrite ensure_user_record_other.
Qed.

Ltac reward_granted Hlast :=
  rewrite decide_False by (rewrite Hlast; lia);
  cbn [fst snd]; unfold save_user_db, save, update_user, with_users,
    credits_of, last_daily_of, last_weekly_of; cbn [users];
  rewrite ?lookup_alter_eq, ?ensure_user_record_lookup; cbn.

(** A [.daily] claim made at least a day after the last one pays 50
    credits to the caller alone, and closes the command to that account
    for the next 24 hours. *)
Theorem daily_pays_once_a_day uid now s :
  24 * 3600 ≤ unix now - last_daily_of s uid →
  (daily uid now s).2 = Rewarded
  ∧ credits_of (daily uid now s).1 uid = credits_of s uid + 50
  ∧ (∀ w, w ≠ uid → users (daily uid now s).1 !! w = users s !! w)
  ∧ ∀ later, unix later - unix now < 24 * 3600 →
      daily uid later (daily uid now s).1 = ((daily uid now s).1, OnCooldown).
Proof.
  intros Hdue. pose proof (last_daily_of_ensure uid uid s) as Hlast.
  assert (∃ u, users (daily uid now s).1 !! uid = Some u
               ∧ credits u = credits_of s uid + 50 ∧ last_daily u = Some (unix now))
    as (u & Hu & Hc & Hl).
  { unfold daily. reward_granted Hlast.
    eexists. split; [done|]. cbn. split; [|done].
    unfold credits_of. by destruct (users s !! uid). }
  split; [unfold daily; by rewrite decide_False by (rewrite Hlast; lia)|].
  split; [unfold credits_of at 1; by rewrite Hu|].
  split.
  - intros w Hw. unfold daily. rewrite decide_False by (rewrite Hlast; lia).
    cbn. by rewrite !lookup_alter_ne, ensure_user_record_other.
  - intros later Hsoon. unfold daily at 1.
    rewrite (ensure_user_record_present _ _ _ Hu).
    unfold last_daily_of. rewrite Hu, Hl. cbn. by rewrite decide_True by lia.
Qed.

Lemma daily_pays_once_a_day_witness :
  credits_of (daily "7" (mk_clock 90000 "") store_30).1 "7" = 80.
Proof.
  destruct (daily_pays_once_a_day "7" (mk_clock 90000 "") store_30) as (_ & H & _).
  - by vm_compute.
  - exact H.
Defined.

(** The same for [.weekly]: 400 credits, at most once in seven days. *)
Theorem weekly_pays_once_a_week uid now s :
  7 * 24 * 3600 ≤ unix now - last_weekly_of s uid →
  (weekly uid now s).2 = Rewarded
  ∧ credits_of (weekly uid now s).1 uid = credits_of s uid + 400
  ∧ (∀ w, w ≠ uid → users (weekly uid now s).1 !! w = users s !! w)
  ∧ ∀ later, unix later - unix now < 7 * 24 * 3600 →
      weekly uid later (weekly uid now s).1 = ((weekly uid now s).1, OnCooldown).
Proof.
  intros Hdue. pose proof (last_weekly_of_ensure uid uid s) as Hlast.
  assert (∃ u, users (weekly uid now s).1 !! uid = Some u
               ∧ credits u = credits_of s uid + 400 ∧ last_weekly u = Some (unix now))
    as (u & Hu & Hc & Hl).
  { unfold weekly. reward_granted Hlast.
    eexists. split; [done|]. cbn. split; [|done].
    unfold credits_of. by destruct (users s !! uid). }
  split; [unfold weekly; by rewrite decide_False by (rewrite Hlast; lia)|].
  split; [unfold credits_of at 1; by rewrite Hu|].
  split.
  - intros w Hw. unfold weekly. rewrite decide_False by (rewrite Hlast; lia).
    cbn. by rewrite !lookup_alter_ne, ensure_user_record_other.
  - intros later Hsoon. unfold weekly at 1.
    rewrite (ensure_user_record_present _ _ _ Hu).
    unfold last_weekly_of. rewrite Hu, Hl. cbn. by rewrite decide_True by lia.
Qed.

Lemma weekly_pays_once_a_week_witness :
  credits_of (weekly "7" (mk_clock 700000 "") store_30).1 "7" = 430.
Proof.
  destruct (weekly_pays_once_a_week "7" (mk_clock 700000 "") store_30) as (_ & H & _).
  - by vm_compute.
  - exact H.
Defined.

(** ** Purchases and bets *)

Lemma plans_cost_pos name p : plans name = Some p → 0 < plan_cost p.
Proof. unfold plans. repeat case_decide; intros [= <-]; simpl; lia. Qed.

(** A purchase that goes through takes exactly the price of the plan from
    the buyer, who could afford it, so the balance does not go below 0 for
    it; it stores one new active resource of the plan's size for the
    buyer under an id that was free, and touches no other account. *)
Theorem buy_with_credits_bought maintenance uid plan_name now s vid :
  (buy_with_credits maintenance uid plan_name now s).2 = Bought vid →
  ∃ p, plans (PyStr.lower plan_name) = Some p
       ∧ plan_cost p ≤ credits_of s uid
       ∧ credits_of (buy_with_credits maintenance uid plan_name now s).1 uid
         = credits_of s uid - plan_cost p
       ∧ vps s !! vid = None
       ∧ vps (buy_with_credits maintenance uid plan_name now s).1
         = <[vid := mk_vps vid uid (plan_ram p) (plan_cpu p) (plan_storage p) "active" []
                           (iso now) None]> (vps s)
       ∧ ∀ w, w ≠ uid →
              users (buy_with_credits maintenance uid plan_name now s).1 !! w
              = users s !! w.
Proof.
  unfold buy_with_credits. destruct maintenance; [done|].
  destruct (plans (PyStr.lower plan_name)) as [p|] eqn:Hp; [|done].
  destruct (decide (credits_of (ensure_user_record uid s) uid < plan_cost p))
    as [Hlow|Hok]; [done|].
  rewrite credits_of_ensure in Hok.
  unfold create_vps_record. cbn [fst snd]. intros [= <-].
  destruct (ensure_user_record_frame uid s) as (Hv & _).
  assert (get_next_vps_id
            (update_user uid
               (set_credits (credits_of (ensure_user_record uid s) uid - plan_cost p))
               (ensure_user_record uid s)) = get_next_vps_id s) as Hid.
  { unfold get_next_vps_id. cbn. by rewrite Hv. }
  rewrite Hid. exists p. split; [done|]. split; [lia|]. split; [|split; [|split]].
  - unfold credits_of at 1. cbn.
    rewrite lookup_alter_eq, ensure_user_record_lookup. cbn.
    by rewrite credits_of_ensure.
  - apply get_next_vps_id_fresh.
  - cbn. by rewrite Hv.
  - intros w Hw. cbn. by rewrite lookup_alter_ne, ensure_user_record_other.
Qed.

Lemma buy_with_credits_bought_witness :
  ∃ p, plans (PyStr.lower "Basic") = Some p
       ∧ credits_of (buy_with_credits false "7" "Basic" at_1000
                       (admin_add_credits true "7" 200 fresh_state).1).1 "7"
         = credits_of (admin_add_credits true "7" 200 fresh_state).1 "7" - plan_cost p.
Proof.
  destruct (buy_with_credits_bought false "7" "Basic" at_1000
              (admin_add_credits true "7" 200 fresh_state).1 "1")
    as (p & Hp & _ & Hc & _).
  - by vm_compute.
  - exists p. split; [exact Hp | exact Hc].
Defined.

(** A purchase that is refused (maintenance, unknown plan, too few
    credits) stores no resource and moves no balance. *)
Theorem buy_with_credits_refused maintenance uid plan_name now s :
  (∀ vid, (buy_with_credits maintenance uid plan_name now s).2 ≠ Bought vid) →
  vps (buy_with_credits maintenance uid plan_name now s).1 = vps s
  ∧ ∀ w, credits_of (buy_with_credits maintenance uid plan_name now s).1 w
         = credits_of s w.
Proof.
  unfold buy_with_credits. destruct maintenance; [done|].
  destruct (plans (PyStr.lower plan_name)) as [p|]; [|done].
  destruct (decide (credits_of (ensure_user_record uid s) uid < plan_cost p)).
  - intros _. cbn [fst]. split.
    + by destruct (ensure_user_record_frame uid s) as [-> _].
    + intros w. apply credits_of_ensure.
  - unfold create_vps_record. cbn [fst snd]. intros H. by destruct (H _ eq_refl).
Qed.

Lemma buy_with_credits_refused_witness :
  vps (buy_with_credits false "7" "premium" at_1000 store_30).1 = vps store_30.
Proof.
  destruct (buy_with_credits_refused false "7" "premium" at_1000 store_30) as [H _].
  - intros vid. by vm_compute.
  - exact H.
Defined.

(** A bet is only taken from a balance that covers it, and whatever the
    draw the balance afterwards is the old one less the stake, plus ten
    times the stake, plus twice the stake, or plus nothing; it is never
    negative, and no other account changes. A refused bet moves nothing. *)
Theorem gamble_outcome uid amount below_005 below_05 s :
  let r := gamble uid amount below_005 below_05 s in
  (r.2 = Done →
     0 < amount ≤ credits_of s uid
     ∧ credits_of r.1 uid
       = credits_of s uid - amount
         + (if below_005 then amount * 10 else if below_05 then amount * 2 else 0)
     ∧ 0 ≤ credits_of r.1 uid)
  ∧ (r.2 ≠ Done → ∀ w, credits_of r.1 w = credits_of s w)
  ∧ ∀ w, w ≠ uid → credits_of r.1 w = credits_of s w.
Proof.
  unfold gamble. destruct (decide (amount ≤ 0)) as [Hle|Hpos]; [done|].
  destruct (decide (credits_of (ensure_user_record uid s) uid < amount)) as [Hlow|Hok].
  { cbn. split; [done|]. split; intros; apply credits_of_ensure. }
  rewrite credits_of_ensure in Hok.
  assert (is_Some (users (ensure_user_record uid s) !! uid)) as Hu
    by (apply ensure_user_record_is_Some; by left).
  set (s1 := update_user uid
               (set_credits (credits_of (ensure_user_record uid s) uid - amount))
               (ensure_user_record uid s)).
  assert (credits_of s1 uid = credits_of s uid - amount) as Hc1.
  { unfold s1. rewrite credits_of_update_same by done. by rewrite credits_of_ensure. }
  assert (is_Some (users s1 !! uid)) as Hu1 by (by apply update_user_is_Some).
  cbn [fst snd]. unfold save_user_db. split; [|split].
  - intros _. split; [lia|]. rewrite credits_of_save.
    destruct below_005; [|destruct below_05].
    + rewrite credits_of_update_same by done. rewrite Hc1. split; lia.
    + rewrite credits_of_update_same by done. rewrite Hc1. split; lia.
    + rewrite Hc1. split; lia.
  - done.
  - intros w Hw. rewrite credits_of_save.
    assert (credits_of s1 w = credits_of s w) as Hw1.
    { unfold s1. rewrite credits_of_update_other by done. apply credits_of_ensure. }
    destruct below_005; [|destruct below_05];
      rewrite ?credits_of_update_other by done; done.
Qed.

Lemma gamble_outcome_witness :
  credits_of (gamble "7" 10 false true store_30).1 "7" = 40.
Proof.
  destruct (gamble_outcome "7" 10 false true store_30) as (H & _).
  destruct H as (_ & Hc & _); [by vm_compute|].
  exact Hc.
Defined.

Lemma bulk_grant_loop amount (members : list Z) : ∀ s,
  let out := foldl (λ (s : state) (m : Z),
                      let uid := PyStr.str m in
                      let s := ensure_user_record uid s in
                      update_user uid (set_credits (credits_of s uid + amount)) s)
                   s members in
  total_credits out = total_credits s + amount * Z.of_nat (length members)
  ∧ ∀ w, credits_of out w
         = credits_of s w
           + amount * Z.of_nat (length (filter (λ m, PyStr.str m = w) members)).
Proof.
  induction members as [|m members IH]; intros s.
  { cbn. split; [lia|]. intros w. lia. }
  cbn [foldl]. cbv zeta.
  set (s1 := update_user (PyStr.str m)
               (set_credits (credits_of (ensure_user_record (PyStr.str m) s) (PyStr.str m)
                             + amount))
               (ensure_user_record (PyStr.str m) s)).
  destruct (IH s1) as [Htot Hw]. cbv zeta in Htot, Hw.
  assert (is_Some (users (ensure_user_record (PyStr.str m) s) !! PyStr.str m)) as Hu
    by (apply ensure_user_record_is_Some; by left).
  split.
  - rewrite Htot. unfold s1. rewrite total_credits_set by done.
    rewrite total_credits_ensure. cbn [length]. lia.
  - intros w. rewrite Hw. rewrite filter_cons.
    destruct (decide (PyStr.str m = w)) as [<-|Hne].
    + unfold s1. rewrite credits_of_update_same by done.
      rewrite credits_of_ensure. cbn [length]. lia.
    + unfold s1. rewrite credits_of_update_other by done.
      by rewrite credits_of_ensure.
Qed.

(** [bulk_grant] pays every listed member once per listing: the sum of
    all balances grows by the amount times the number of listings, and an
    account's balance by the amount times the number of times it is
    listed. *)
Theorem bulk_grant_pays_each_listing amount members s :
  (bulk_grant true amount members s).2 = Done
  ∧ total_credits (bulk_grant true amount members s).1
    = total_credits s + amount * Z.of_nat (length members)
  ∧ ∀ w, credits_of (bulk_grant true amount members s).1 w
         = credits_of s w
           + amount * Z.of_nat (length (filter (λ m, PyStr.str m = w) members)).
Proof.
  unfold bulk_grant. cbn [negb fst snd]. split; [done|].
  apply (bulk_grant_loop amount members s).
Qed.

(** ** Explicit purge protection *)

Lemma isdigit_not_mention target : PyStr.isdigit target = true → is_mention target = false.
Proof.
  destruct target as [|c t]; [done|]. cbn. intros H.
  apply andb_true_iff in H as [Hc _]. clear -Hc.
  destruct c as [[] [] [] [] [] [] [] []]; try discriminate Hc; reflexivity.
Qed.

Lemma digits_of_all_digits ds : PyStr.all_digits ds = true → digits_of ds = ds.
Proof.
  induction ds as [|c ds IH]; cbn; [done|]. intros H.
  apply andb_true_iff in H as [Hc Hd]. by rewrite Hc, IH.
Qed.

Lemma digits_of_app a b : digits_of (a ++ b)%string = (digits_of a ++ digits_of b)%string.
Proof.
  induction a as [|c a IH]; [done|]. rewrite append_cons. cbn.
  destruct (PyStr.is_digit_char c); [rewrite append_cons|]; by rewrite IH.
Qed.

Lemma append_empty_r (a : string) : (a ++ EmptyString)%string = a.
Proof. induction a as [|c a IH]; [done|]. by rewrite append_cons, IH. Qed.

Lemma is_mention_prefix x : is_mention ("<@" ++ x)%string = true.
Proof. by destruct x. Qed.

(** The mention of account [n], as the chat platform writes it. *)
Lemma digits_of_mention n :
  0 ≤ n → digits_of ("<@" ++ PyStr.str n ++ ">")%string = PyStr.str n.
Proof.
  intros Hn. rewrite !digits_of_app. cbn [digits_of].
  change (digits_of "<@") with EmptyString. change (digits_of ">") with EmptyString.
  rewrite append_empty, append_empty_r. by apply digits_of_all_digits, all_digits_str.
Qed.

Lemma purge_start_lookup author msg_id channel_id now s k :
  vps (purge_start true author msg_id channel_id now s).1 !! k
  = match vps s !! k with
    | Some v => if keep_at_start (purge s) k v then Some v else None
    | None => None
    end.
Proof.
  unfold purge_start. cbn [negb].
  destruct (sweep _ _) as [s' removed] eqn:E. cbn [fst snd].
  match type of E with sweep ?keep ?s0 = _ =>
    pose proof (sweep_spec keep s0) as [Hl _] end.
  rewrite E in Hl. cbn in Hl. by rewrite Hl.
Qed.

Lemma execute_scheduled_purge_lookup requested_by now s k :
  vps (execute_scheduled_purge requested_by now s).1 !! k
  = match vps s !! k with
    | Some v =>
        if keep_at_end (purge s) (protected_user_ids (unix now) (protected s)) k v
        then Some v else None
    | None => None
    end.
Proof.
  unfold execute_scheduled_purge.
  destruct (sweep _ s) as [s' removed] eqn:E. cbn [fst snd].
  pose proof (sweep_spec (keep_at_end (purge s)
                (protected_user_ids (unix now) (protected s))) s) as [Hl _].
  rewrite E in Hl. cbn in Hl. by rewrite Hl.
Qed.

(** Once the owner has listed a resource id with [.dontpurgevps], that
    resource comes through both purge sweeps. *)
Theorem dont_purge_vps_survives target s info author msg_id channel_id now :
  PyStr.isdigit target = true → vps s !! target = Some info →
  (dont_purge true target s).2 = VpsListed target
  ∧ vps (purge_start true author msg_id channel_id now (dont_purge true target s).1).1
      !! target = Some info
  ∧ vps (execute_scheduled_purge author now (dont_purge true target s).1).1
      !! target = Some info.
Proof.
  intros Hd Hv. unfold dont_purge. cbn [negb].
  rewrite (isdigit_not_mention _ Hd), Hd. cbn [fst snd].
  split; [done|]. split.
  - rewrite purge_start_lookup. cbn. rewrite Hv. unfold keep_at_start. cbn.
    rewrite bool_decide_eq_true_2; [done|]. apply elem_of_app. right. by left.
  - rewrite execute_scheduled_purge_lookup. cbn. rewrite Hv. unfold keep_at_end. cbn.
    rewrite bool_decide_eq_true_2; [done|]. apply elem_of_app. right. by left.
Qed.

Lemma dont_purge_vps_survives_witness :
  vps (purge_start true 1 2 3 at_1000 (dont_purge true "1" store_reacted).1).1 !! "1"
  = Some (mk_vps "1" "7" 2 1 20 "active" [] "1970-01-01T00:00:00+00:00" None).
Proof.
  destruct (dont_purge_vps_survives "1" store_reacted
              (mk_vps "1" "7" 2 1 20 "active" [] "1970-01-01T00:00:00+00:00" None)
              1 2 3 at_1000) as (_ & H & _); [reflexivity | reflexivity | exact H].
Defined.

(** Once the owner has listed an account by its mention, every resource
    of that account comes through both purge sweeps. *)
Theorem dont_purge_user_survives n s vid info author msg_id channel_id now :
  0 ≤ n → vps s !! vid = Some info → vps_owner info = PyStr.str n →
  let s1 := (dont_purge true ("<@" ++ PyStr.str n ++ ">")%string s).1 in
  (dont_purge true ("<@" ++ PyStr.str n ++ ">")%string s).2 = UserListed (PyStr.str n)
  ∧ vps (purge_start true author msg_id channel_id now s1).1 !! vid = Some info
  ∧ vps (execute_scheduled_purge author now s1).1 !! vid = Some info.
Proof.
  intros Hn Hv Ho. unfold dont_purge. cbn [negb].
  rewrite is_mention_prefix.
  rewrite (digits_of_mention n Hn).
  rewrite decide_False by (by apply str_nonempty). cbn [fst snd].
  split; [done|]. split.
  - rewrite purge_start_lookup. cbn. rewrite Hv. unfold keep_at_start. cbn.
    rewrite (bool_decide_eq_true_2 (vps_owner info ∈ _)); [by rewrite orb_true_r|].
    rewrite Ho. apply elem_of_app. right. by left.
  - rewrite execute_scheduled_purge_lookup. cbn. rewrite Hv. unfold keep_at_end. cbn.
    rewrite (bool_decide_eq_true_2 (vps_owner info ∈ protected_users (purge s) ++ _));
      [by rewrite orb_true_r|].
    rewrite Ho. apply elem_of_app. right. by left.
Qed.

Lemma dont_purge_user_survives_witness :
  vps (purge_start true 1 2 3 at_1000 (dont_purge true "<@7>" store_reacted).1).1 !! "1"
  = Some (mk_vps "1" "7" 2 1 20 "active" [] "1970-01-01T00:00:00+00:00" None).
Proof.
  destruct (dont_purge_user_survives 7 store_reacted "1"
              (mk_vps "1" "7" 2 1 20 "active" [] "1970-01-01T00:00:00+00:00" None)
              1 2 3 at_1000) as (_ & H & _);
    [lia | reflexivity | reflexivity | exact H].
Defined.

Lemma remove_first_app_fresh x (l : list string) :
  x ∉ l → remove_first x (l ++ [x]) = l.
Proof.
  induction l as [|y l IH]; cbn; intros Hx.
  - by rewrite decide_True.
  - apply not_elem_of_cons in Hx as [Hne Hx].
    rewrite decide_False by done. by rewrite IH.
Qed.

Lemma remove_first_app_in x (l l' : list string) :
  x ∈ l → remove_first x (l ++ l') = remove_first x l ++ l'.
Proof.
  induction l as [|y l IH]; cbn; intros Hx; [by apply elem_of_nil in Hx|].
  destruct (decide (x = y)); [done|].
  apply elem_of_cons in Hx as [?|Hx]; [done|]. by rewrite IH.
Qed.

(** Taking a resource id off the protected list undoes one listing: after
    one listing the purge record is as before, but an id listed twice is
    still listed, and still comes through the sweep, after one removal. *)
Theorem RemoveProtectionConfirm_undoes_one_listing t s :
  PyStr.isdigit t = true →
  (t ∉ protected_vps (purge s) →
     purge (RemoveProtectionConfirm_confirm true t (dont_purge true t s).1).1 = purge s)
  ∧ t ∈ protected_vps
          (purge (RemoveProtectionConfirm_confirm true t
                    (dont_purge true t (dont_purge true t s).1).1).1)
  ∧ (t ∉ protected_vps (purge s) →
     (RemoveProtectionConfirm_confirm true t s).2 = ProtectNotFound
     ∧ (RemoveProtectionConfirm_confirm true t s).1 = s).
Proof.
  intros Hd. pose proof (isdigit_not_mention _ Hd) as Hm.
  assert (∀ s0, dont_purge true t s0
                = (save_vps_data
                     (with_purge (λ p, set_protected_vps (protected_vps p ++ [t]) p) s0),
                   VpsListed t)) as Hlist.
  { intros s0. unfold dont_purge. cbn [negb]. by rewrite Hm, Hd. }
  assert (∀ s0, t ∈ protected_vps (purge s0) →
            RemoveProtectionConfirm_confirm true t s0
            = (save_vps_data
                 (with_purge
                    (λ p, set_protected_vps (remove_first t (protected_vps p)) p) s0),
               VpsUnlisted t)) as Hunlist.
  { intros s0 Hin. unfold RemoveProtectionConfirm_confirm. cbn [negb].
    rewrite Hm, Hd. by rewrite decide_True. }
  split; [|split].
  - intros Hfresh. rewrite Hlist. cbn [fst].
    rewrite Hunlist by (cbn; apply elem_of_app; right; by left).
    cbn. rewrite remove_first_app_fresh by done. by destruct (purge s).
  - rewrite !Hlist. cbn [fst].
    rewrite Hunlist by (cbn; apply elem_of_app; right; by left).
    cbn. rewrite remove_first_app_in by (apply elem_of_app; right; by left).
    apply elem_of_app. right. by left.
  - intros Hfresh. unfold RemoveProtectionConfirm_confirm. cbn [negb].
    rewrite Hm, Hd. by rewrite decide_False.
Qed.

Lemma RemoveProtectionConfirm_undoes_one_listing_witness :
  purge (RemoveProtectionConfirm_confirm true "1" (dont_purge true "1" store_reacted).1).1
  = purge store_reacted.
Proof.
  destruct (RemoveProtectionConfirm_undoes_one_listing "1" store_reacted) as (H & _);
    [reflexivity|].
  apply H. cbn. apply not_elem_of_nil.
Defined.

(** ** What the sweeps report *)

Lemma sweep_loop_removed (keep : string → vps_rec → bool) (l : list (string * vps_rec)) :
  ∀ s r,
  (foldl (λ (acc : state * list string) (kv : string * vps_rec),
            if keep kv.1 kv.2 then acc
            else (with_vps (delete kv.1) acc.1, (acc.2 ++ [kv.1])%list))
         (s, r) l).2
  = r ++ (filter (λ kv : string * vps_rec, keep kv.1 kv.2 = false) l).*1.
Proof.
  induction l as [|kv l IH]; intros s r; cbn [foldl].
  { by rewrite app_nil_r. }
  rewrite filter_cons. destruct (keep kv.1 kv.2) eqn:E.
  - rewrite IH. by rewrite decide_False by done.
  - rewrite IH. rewrite decide_True by done. cbn. by rewrite <- app_assoc.
Qed.

Lemma sweep_removed keep s :
  (sweep keep s).2
  = (filter (λ kv : string * vps_rec, keep kv.1 kv.2 = false) (map_to_list (vps s))).*1.
Proof. unfold sweep. by rewrite sweep_loop_removed. Qed.

Lemma sweep_removed_spec keep s vid :
  vid ∈ (sweep keep s).2
  ↔ is_Some (vps s !! vid) ∧ vps (sweep keep s).1 !! vid = None.
Proof.
  rewrite sweep_removed. destruct (sweep_spec keep s) as [Hl _]. rewrite Hl.
  rewrite list_elem_of_fmap. split.
  - intros ([k v] & -> & Hin). apply list_elem_of_filter in Hin as [Hk Hin].
    apply elem_of_map_to_list in Hin. cbn in *. rewrite Hin, Hk. eauto.
  - intros [[v Hv] Hnone]. rewrite Hv in Hnone.
    exists (vid, v). split; [done|]. apply list_elem_of_filter. split.
    + cbn. by destruct (keep vid v).
    + by apply elem_of_map_to_list.
Qed.

Lemma sweep_removed_NoDup keep s : NoDup (sweep keep s).2.
Proof.
  rewrite sweep_removed.
  pose proof (NoDup_fst_map_to_list (vps s)) as Hnd.
  induction (map_to_list (vps s)) as [|kv l IH]; [constructor|].
  rewrite fmap_cons in Hnd. apply NoDup_cons in Hnd as [Hkv Hnd].
  rewrite filter_cons. destruct (decide _); [|by apply IH].
  rewrite fmap_cons. apply NoDup_cons. split; [|by apply IH].
  intros Hin. apply Hkv. apply list_elem_of_fmap in Hin as (kv' & -> & Hin).
  apply list_elem_of_filter in Hin as [_ Hin].
  apply list_elem_of_fmap. eauto.
Qed.

Lemma purge_start_removed_gone author msg_id channel_id now s vid :
  vid ∈ (purge_start true author msg_id channel_id now s).2 ↔
  is_Some (vps s !! vid)
  ∧ vps (purge_start true author msg_id channel_id now s).1 !! vid = None.
Proof.
  unfold purge_start. cbn [negb].
  match goal with |- context [sweep ?k ?s0] =>
    pose proof (sweep_removed_spec k s0 vid) as Hsp;
    destruct (sweep k s0) as [s' removed] end.
  cbn [fst snd] in *. exact Hsp.
Qed.

Lemma execute_scheduled_purge_removed_gone author now s vid :
  vid ∈ (execute_scheduled_purge author now s).2 ↔
  is_Some (vps s !! vid)
  ∧ vps (execute_scheduled_purge author now s).1 !! vid = None.
Proof.
  unfold execute_scheduled_purge.
  match goal with |- context [sweep ?k ?s0] =>
    pose proof (sweep_removed_spec k s0 vid) as Hsp;
    destruct (sweep k s0) as [s' removed] end.
  cbn [fst snd] in *. exact Hsp.
Qed.

(** The ids both purge paths report as removed are exactly the resources
    that were on record before and are gone after, each named once. *)
Theorem purge_reports_what_it_removed author msg_id channel_id now s :
  (NoDup (purge_start true author msg_id channel_id now s).2
   ∧ ∀ vid, vid ∈ (purge_start true author msg_id channel_id now s).2
            ↔ is_Some (vps s !! vid)
              ∧ vps (purge_start true author msg_id channel_id now s).1 !! vid = None)
  ∧ (NoDup (execute_scheduled_purge author now s).2
     ∧ ∀ vid, vid ∈ (execute_scheduled_purge author now s).2
              ↔ is_Some (vps s !! vid)
                ∧ vps (execute_scheduled_purge author now s).1 !! vid = None).
Proof.
  split.
  - unfold purge_start. cbn [negb].
    match goal with |- context [sweep ?k ?s0] =>
      pose proof (sweep_removed_NoDup k s0) as Hnd;
      pose proof (sweep_removed_spec k s0) as Hsp;
      destruct (sweep k s0) as [s' removed] end.
    cbn [fst snd] in *. split; [done|]. intros vid. apply Hsp.
  - unfold execute_scheduled_purge.
    match goal with |- context [sweep ?k ?s0] =>
      pose proof (sweep_removed_NoDup k s0) as Hnd;
      pose proof (sweep_removed_spec k s0) as Hsp;
      destruct (sweep k s0) as [s' removed] end.
    cbn [fst snd] in *. split; [done|]. intros vid. apply Hsp.
Qed.

(** A second [.purgestart] right after the first removes nothing more,
    and neither does a second sweep at the end of the window made at the
    same clock reading. *)
Theorem purge_sweeps_idempotent author msg_id channel_id now s :
  vps (purge_start true author msg_id channel_id now
         (purge_start true author msg_id channel_id now s).1).1
  = vps (purge_start true author msg_id channel_id now s).1
  ∧ (purge_start true author msg_id channel_id now
       (purge_start true author msg_id channel_id now s).1).2 = []
  ∧ vps (execute_scheduled_purge author now (execute_scheduled_purge author now s).1).1
    = vps (execute_scheduled_purge author now s).1
  ∧ (execute_scheduled_purge author now (execute_scheduled_purge author now s).1).2 = [].
Proof.
  assert (∀ k, vps (purge_start true author msg_id channel_id now
                      (purge_start true author msg_id channel_id now s).1).1 !! k
               = vps (purge_start true author msg_id channel_id now s).1 !! k) as H1.
  { intros k. rewrite purge_start_lookup.
    assert (protected_vps (purge (purge_start true author msg_id channel_id now s).1)
            = protected_vps (purge s)
            ∧ protected_users (purge (purge_start true author msg_id channel_id now s).1)
              = protected_users (purge s)) as [Hpv Hpu].
    { unfold purge_start. cbn [negb].
      match goal with |- context [sweep ?k0 ?s0] =>
        pose proof (sweep_spec k0 s0) as [_ Hf];
        destruct (sweep k0 s0) as [s' removed] end.
      cbn in Hf. unfold frame in Hf. cbn in Hf.
      assert (purge s' = set_window (unix now) (unix now + 72 * 3600)
                           (set_message msg_id channel_id (set_active true (purge s))))
        as Hp by (by inversion Hf).
      cbn. by rewrite Hp. }
    unfold keep_at_start at 1. rewrite Hpv, Hpu.
    rewrite purge_start_lookup. destruct (vps s !! k) as [v|]; [|done].
    unfold keep_at_start.
    by destruct (bool_decide (k ∈ protected_vps (purge s))
                 || bool_decide (vps_owner v ∈ protected_users (purge s))) eqn:E;
      rewrite ?E. }
  assert (∀ k, vps (execute_scheduled_purge author now
                      (execute_scheduled_purge author now s).1).1 !! k
               = vps (execute_scheduled_purge author now s).1 !! k) as H2.
  { intros k. rewrite execute_scheduled_purge_lookup.
    destruct (execute_scheduled_purge_frame author now s) as (Hp & _).
    assert (protected (execute_scheduled_purge author now s).1 = protected s) as Hpr.
    { unfold execute_scheduled_purge.
      match goal with |- context [sweep ?k0 ?s0] =>
        pose proof (sweep_spec k0 s0) as [_ Hf];
        destruct (sweep k0 s0) as [s' removed] end.
      cbn in *. unfold frame in Hf. by inversion Hf. }
    rewrite Hp, Hpr. rewrite execute_scheduled_purge_lookup.
    destruct (vps s !! k) as [v|]; [|done].
    by destruct (keep_at_end _ _ k v) eqn:E; rewrite ?E. }
  split; [by apply map_eq|]. split; [|split; [by apply map_eq|]].
  - apply elem_of_nil_inv. intros vid Hin.
    apply purge_start_removed_gone in Hin as [[v Hv] Hnone].
    rewrite H1, Hv in Hnone. done.
  - apply elem_of_nil_inv. intros vid Hin.
    apply execute_scheduled_purge_removed_gone in Hin as [[v Hv] Hnone].
    rewrite H2, Hv in Hnone. done.
Qed.

(** ** Protection by reaction *)

Lemma filter_filter_neg_nil (P : protection_rec → Prop) `{!∀ r, Decision (P r)}
    (l : list protection_rec) :
  filter P (filter (λ r, ¬ P r) l) = [].
Proof.
  induction l as [|r l IH]; [done|]. rewrite filter_cons.
  destruct (decide (¬ P r)) as [Hn|Hp]; [|done].
  rewrite filter_cons. by rewrite decide_False.
Qed.

Lemma filter_filter_same (P : protection_rec → Prop) `{!∀ r, Decision (P r)}
    (l : list protection_rec) :
  filter P (filter P l) = filter P l.
Proof.
  induction l as [|r l IH]; [done|]. rewrite filter_cons.
  destruct (decide (P r)) as [Hp|Hn]; [|done].
  rewrite filter_cons. rewrite decide_True by done. by rewrite IH.
Qed.

(** A reaction on the purge announcement by anyone but the bot leaves
    exactly one protection record for that account, the new one, and the
    records of all other accounts as they were; a reaction on another
    message, or one by the bot itself, changes nothing. *)
Theorem on_raw_reaction_add_one_record message_id channel_id user_id bot_id emoji now s :
  purge_message_id (purge s) = Some message_id →
  purge_channel_id (purge s) = Some channel_id →
  message_id ≠ 0 → channel_id ≠ 0 → user_id ≠ bot_id →
  let s' := on_raw_reaction_add message_id user_id bot_id emoji now s in
  filter (λ r, prot_user_id r = PyStr.str user_id) (protected s')
  = [mk_protection (PyStr.str user_id) emoji (unix now) (unix now + 72 * 3600)]
  ∧ filter (λ r, prot_user_id r ≠ PyStr.str user_id) (protected s')
    = filter (λ r, prot_user_id r ≠ PyStr.str user_id) (protected s)
  ∧ (∀ other, other ≠ message_id →
       on_raw_reaction_add other user_id bot_id emoji now s = s)
  ∧ on_raw_reaction_add message_id bot_id bot_id emoji now s = s.
Proof.
  intros Hm Hc Hm0 Hc0 Hbot. unfold on_raw_reaction_add. rewrite Hm, Hc.
  rewrite decide_False by (intros [?|?]; done).
  split; [|split; [|split]].
  - rewrite decide_False by (intros H; by apply H).
    rewrite decide_False by done. cbn.
    rewrite filter_app, filter_filter_neg_nil. cbn.
    rewrite ?filter_cons, ?filter_nil. by rewrite decide_True.
  - rewrite decide_False by (intros H; by apply H).
    rewrite decide_False by done. cbn.
    rewrite filter_app, filter_filter_same.
    rewrite ?filter_cons, ?filter_nil. rewrite decide_False by (intros H; by apply H).
    by rewrite app_nil_r.
  - intros other Hother.
    destruct (decide (message_id = 0 ∨ channel_id = 0)); [done|].
    by rewrite decide_True.
  - destruct (decide (message_id = 0 ∨ channel_id = 0)); [done|].
    rewrite decide_False by (intros H; by apply H). by rewrite decide_True.
Qed.

Lemma on_raw_reaction_add_one_record_witness :
  filter (λ r, prot_user_id r = PyStr.str 7)
         (protected (on_raw_reaction_add 2 7 99 "A" at_1000
                       (with_purge (set_message 2 3) store_reacted)))
  = [mk_protection (PyStr.str 7) "A" 1000 (1000 + 72 * 3600)].
Proof.
  destruct (on_raw_reaction_add_one_record 2 3 7 99 "A" at_1000
              (with_purge (set_message 2 3) store_reacted)) as (H & _);
    [reflexivity | reflexivity | lia | lia | lia | exact H].
Defined.

(** Who reacted to the announcement keeps every resource in a sweep at the
    end of the window made no later than 72 hours after the reaction; in a
    later sweep the reaction no longer counts, and a resource protected by
    nothing else is removed. *)
Theorem reaction_protects_for_72_hours
    message_id channel_id user_id bot_id emoji now s vid info requested_by later :
  purge_message_id (purge s) = Some message_id →
  purge_channel_id (purge s) = Some channel_id →
  message_id ≠ 0 → channel_id ≠ 0 → user_id ≠ bot_id →
  vps s !! vid = Some info → vps_owner info = PyStr.str user_id →
  let s' := on_raw_reaction_add message_id user_id bot_id emoji now s in
  (unix later ≤ unix now + 72 * 3600 →
     vps (execute_scheduled_purge requested_by later s').1 !! vid = Some info)
  ∧ (unix now + 72 * 3600 < unix later →
     vid ∉ protected_vps (purge s) → vps_owner info ∉ protected_users (purge s) →
     vps (execute_scheduled_purge requested_by later s').1 !! vid = None).
Proof.
  intros Hm Hc Hm0 Hc0 Hbot Hv Ho s'.
  destruct (on_raw_reaction_add_grants message_id channel_id user_id bot_id emoji now s
              Hm Hc Hm0 Hc0 Hbot) as (Hin & Hvps & Hpurge).
  fold s' in Hin, Hvps, Hpurge.
  assert (vps s' !! vid = Some info) as Hv' by (by rewrite Hvps).
  destruct (execute_scheduled_purge_exact requested_by later s' vid info Hv')
    as [Hkeep Hdrop].
  split.
  - intros Hsoon. apply Hkeep.
    right; right. eexists. split; [exact Hin|]. cbn. split; [done|lia].
  - intros Hlate Hnv Hnu. apply Hdrop.
    intros [Hp|[Hp|(r & Hr & Hid & Hexp)]].
    + by rewrite Hpurge in Hp.
    + by rewrite Hpurge in Hp.
    + assert (r ∈ filter (λ r, prot_user_id r = PyStr.str user_id) (protected s'))
        as Hrf by (apply list_elem_of_filter; split; [congruence|done]).
      unfold s' in Hrf.
      unfold on_raw_reaction_add in Hrf. rewrite Hm, Hc in Hrf.
      rewrite decide_False in Hrf by (intros [?|?]; done).
      rewrite decide_False in Hrf by (intros H; by apply H).
      rewrite decide_False in Hrf by done. cbn in Hrf.
      rewrite filter_app, filter_filter_neg_nil in Hrf. cbn in Hrf.
      rewrite ?filter_cons, ?filter_nil in Hrf. rewrite decide_True in Hrf by done.
      apply list_elem_of_singleton in Hrf. subst r. cbn in Hexp. lia.
Qed.

Lemma reaction_protects_for_72_hours_witness :
  vps (execute_scheduled_purge 1 (mk_clock 260200 "")
         (on_raw_reaction_add 2 7 99 "A" at_1000
            (with_purge (set_message 2 3) store_reacted))).1 !! "1"
  = Some (mk_vps "1" "7" 2 1 20 "active" [] "1970-01-01T00:00:00+00:00" None).
Proof.
  destruct (reaction_protects_for_72_hours 2 3 7 99 "A" at_1000
              (with_purge (set_message 2 3) store_reacted) "1"
              (mk_vps "1" "7" 2 1 20 "active" [] "1970-01-01T00:00:00+00:00" None)
              1 (mk_clock 260200 "")) as (H & _);
    [reflexivity | reflexivity | lia | lia | lia | reflexivity | reflexivity |].
  apply H. cbn. lia.
Defined.

(** ** Sharing *)

(** The owner of a resource (or of the bot) can share it with a user who
    does not have it yet: that user then passes the test of the management
    buttons, a second share is refused as already done, and revoking the
    share puts the resource map back as it was. *)
Theorem share_then_revoke owner_id author member vid s v :
  vps s !! vid = Some v →
  vps_manage_allowed owner_id author v = true →
  PyStr.str member ∉ vps_shared_with v →
  let s1 := (share_user owner_id author member vid s).1 in
  (share_user owner_id author member vid s).2 = Shared
  ∧ allowed owner_id member vid s1 = true
  ∧ share_user owner_id author member vid s1 = (s1, ShareAlready)
  ∧ (revoke_shared_user owner_id author member vid s1).2 = Revoked
  ∧ vps (revoke_shared_user owner_id author member vid s1).1 = vps s.
Proof.
  intros Hv Hal Hnew.
  assert (share_user owner_id author member vid s
          = (save_vps_data
               (with_vps (insert vid (set_shared_with
                                        (vps_shared_with v ++ [PyStr.str member]) v)) s),
             Shared)) as Hshare.
  { unfold share_user. rewrite Hv, Hal. cbn [negb]. by rewrite decide_False. }
  rewrite Hshare. cbn [fst snd].
  set (v1 := set_shared_with (vps_shared_with v ++ [PyStr.str member]) v).
  set (s1 := save_vps_data (with_vps (insert vid v1) s)).
  assert (vps s1 !! vid = Some v1) as Hv1 by (cbn; apply lookup_insert_eq).
  assert (PyStr.str member ∈ vps_shared_with v1) as Hin
    by (cbn; apply elem_of_app; right; by left).
  assert (vps_manage_allowed owner_id author v1 = true) as Hal1 by done.
  split; [done|]. split; [|split; [|split]].
  - unfold allowed. rewrite Hv1.
    rewrite (bool_decide_eq_true_2 (PyStr.str member ∈ _)) by done.
    by rewrite orb_true_r.
  - unfold share_user. rewrite Hv1, Hal1. cbn [negb]. by rewrite decide_True.
  - unfold revoke_shared_user. rewrite Hv1, Hal1. cbn [negb].
    by rewrite decide_True.
  - unfold revoke_shared_user. rewrite Hv1, Hal1. cbn [negb].
    rewrite decide_True by done. cbn.
    rewrite remove_first_app_fresh by done. rewrite insert_insert_eq.
    apply insert_id. rewrite Hv. by destruct v.
Qed.

Lemma share_then_revoke_witness :
  allowed 1 8 "1" (share_user 1 7 8 "1" store_reacted).1 = true
  ∧ vps (revoke_shared_user 1 7 8 "1" (share_user 1 7 8 "1" store_reacted).1).1
    = vps store_reacted.
Proof.
  destruct (share_then_revoke 1 7 8 "1" store_reacted
              (mk_vps "1" "7" 2 1 20 "active" [] "1970-01-01T00:00:00+00:00" None))
    as (_ & Hal & _ & _ & Hback).
  - reflexivity.
  - reflexivity.
  - cbn. apply not_elem_of_nil.
  - split; [exact Hal | exact Hback].
Defined.

(** Sharing is for the owner of the resource and the owner of the bot
    only: anyone else, a user the resource is shared with included, is
    turned away by both commands and nothing changes. *)
Theorem sharing_needs_owner owner_id author member vid s v :
  vps s !! vid = Some v →
  PyStr.str author ≠ vps_owner v → author ≠ owner_id →
  share_user owner_id author member vid s = (s, ShareNotAllowed)
  ∧ revoke_shared_user owner_id author member vid s = (s, ShareNotAllowed)
  ∧ (PyStr.str author ∈ vps_shared_with v → allowed owner_id author vid s = true).
Proof.
  intros Hv Hno Hnb.
  assert (vps_manage_allowed owner_id author v = false) as Hal.
  { unfold vps_manage_allowed. by rewrite !bool_decide_eq_false_2. }
  unfold share_user, revoke_shared_user, allowed. rewrite Hv, Hal. cbn [negb].
  split; [done|]. split; [done|]. intros Hin.
  rewrite (bool_decide_eq_true_2 (PyStr.str author ∈ _)) by done.
  by rewrite orb_true_r.
Qed.

Lemma sharing_needs_owner_witness :
  share_user 1 8 9 "1" (share_user 1 7 8 "1" store_reacted).1
  = ((share_user 1 7 8 "1" store_reacted).1, ShareNotAllowed).
Proof.
  destruct (sharing_needs_owner 1 8 9 "1" (share_user 1 7 8 "1" store_reacted).1
              (mk_vps "1" "7" 2 1 20 "active" ["8"] "1970-01-01T00:00:00+00:00" None))
    as (H & _).
  - reflexivity.
  - discriminate.
  - lia.
  - exact H.
Defined.

(** ** Deleting resources *)

Lemma get_next_vps_id_ext s s' : vps s = vps s' → get_next_vps_id s = get_next_vps_id s'.
Proof. intros H. unfold get_next_vps_id. by rewrite H. Qed.

(** The id of the newest resource is handed out again once that resource
    has been deleted: ids are not kept apart by a counter. *)
Theorem deleted_id_is_handed_out_again now owner ram cpu storage now' owner' ram' cpu'
    storage' s :
  let r := create_vps_record now owner ram cpu storage s in
  let s1 := ConfirmView_confirm true r.2 r.1 in
  vps s1 = vps s
  ∧ (create_vps_record now' owner' ram' cpu' storage' s1).2 = r.2.
Proof.
  cbn zeta. unfold ConfirmView_confirm. cbn [negb].
  assert (vps (save_vps_data
                 (with_vps (delete (create_vps_record now owner ram cpu storage s).2)
                    (create_vps_record now owner ram cpu storage s).1)) = vps s) as Hv.
  { cbn. rewrite delete_insert_eq. apply delete_id, get_next_vps_id_fresh. }
  split; [done|].
  match goal with |- (create_vps_record _ _ _ _ _ ?s1).2 = _ =>
    change ((create_vps_record now' owner' ram' cpu' storage' s1).2)
      with (get_next_vps_id s1);
    rewrite (get_next_vps_id_ext s1 s Hv) end.
  reflexivity.
Qed.

Lemma finalize_trial_vps_users vid s v :
  vps s !! vid = Some v → vps_owner v ≠ "" →
  users (finalize_trial_vps vid s)
  = alter (set_trial_active false) (vps_owner v)
          (users (ensure_user_record (vps_owner v) s)).
Proof.
  intros Hv Ho. unfold finalize_trial_vps. rewrite Hv.
  rewrite decide_False by done. cbn.
  unfold ensure_user_record. cbn. by destruct (users s !! vps_owner v).
Qed.

(** Deleting a trial resource does not disarm its expiry: the task armed
    by the claim stays in place. If the deadline comes while the id is
    unused, the routine finds nothing and changes nothing, so the owner's
    [trial_active] flag is never cleared. If the id has been handed out
    again by then, the routine removes the new resource, whoever owns it
    and although it is no trial. *)
Theorem expiry_outlives_deleted_trial cfg now uid now' owner' ram cpu storage s :
  let r := ConfirmSelfClaim_claim cfg now uid s in
  let s1 := ConfirmView_confirm true r.2 r.1 in
  let r' := create_vps_record now' owner' ram cpu storage s1 in
  ScheduleTrialExpiry r.2 (unix now + 3 * 24 * 3600) ∈ tasks s1
  ∧ ScheduleTrialExpiry r.2 (unix now + 3 * 24 * 3600) ∈ tasks r'.1
  ∧ finalize_trial_vps r.2 s1 = s1
  ∧ (∃ u, users s1 !! uid = Some u ∧ trial_active u = true)
  ∧ r'.2 = r.2
  ∧ vps r'.1 !! r.2
    = Some (mk_vps r.2 owner' ram cpu storage "active" [] (iso now') None)
  ∧ vps (finalize_trial_vps r.2 r'.1) !! r.2 = None
  ∧ vps (finalize_trial_vps r.2 r'.1) = vps s.
Proof.
  cbn zeta.
  destruct (ConfirmSelfClaim_claim_effect cfg now uid s)
    as (Hid & Hv & _ & Ht & (u & Hu & _ & Hact)).
  cbn zeta in Hid, Hv, Ht, Hu.
  set (r := ConfirmSelfClaim_claim cfg now uid s) in *.
  unfold ConfirmView_confirm. cbn [negb].
  set (s1 := save_vps_data (with_vps (delete r.2) r.1)).
  assert (vps s1 = vps s) as Hvs.
  { change (vps s1) with (delete r.2 (vps r.1)).
    rewrite Hv, delete_insert_eq.
    apply delete_id. rewrite Hid. apply get_next_vps_id_fresh. }
  assert (get_next_vps_id s1 = r.2) as Hnext
    by (by rewrite (get_next_vps_id_ext s1 s Hvs)).
  assert (ScheduleTrialExpiry r.2 (unix now + 3 * 24 * 3600) ∈ tasks s1) as Harmed.
  { change (tasks s1) with (tasks r.1). rewrite Ht.
    apply elem_of_app. right. left. }
  assert (vps (create_vps_record now' owner' ram cpu storage s1).1
          = <[r.2 := mk_vps r.2 owner' ram cpu storage "active" [] (iso now') None]>
              (vps s))
    as Hv'.
  { by rewrite create_vps_record_vps, Hnext, Hvs. }
  split; [done|]. split; [exact Harmed|]. split.
  { apply finalize_trial_vps_absent. rewrite Hvs, Hid. apply get_next_vps_id_fresh. }
  split; [by exists u|]. split; [exact Hnext|]. split.
  { rewrite Hv'. apply lookup_insert_eq. }
  rewrite finalize_trial_vps_vps, Hv'. split; [apply lookup_delete_eq|].
  rewrite delete_insert_eq.
  apply delete_id. rewrite Hid. apply get_next_vps_id_fresh.
Qed.

(** A trial that has run out cannot be claimed again: after the claim and
    the expiry the resource is gone, the account is marked as having
    claimed, no longer active, and [.trial] refuses it; the bonus stays. *)
Theorem trial_not_claimable_after_expiry cfg now uid s :
  uid ≠ "" →
  let r := ConfirmSelfClaim_claim cfg now uid s in
  let s2 := finalize_trial_vps r.2 r.1 in
  vps s2 = vps s
  ∧ (∃ u, users s2 !! uid = Some u ∧ trial_claimed u = true ∧ trial_active u = false)
  ∧ credits_of s2 uid = credits_of s uid + trial_credits cfg
  ∧ trial false None uid s2 = (s2, AlreadyClaimed).
Proof.
  intros Huid. cbn zeta.
  destruct (ConfirmSelfClaim_claim_effect cfg now uid s)
    as (Hid & Hv & Hc & _ & (u & Hu & Hcl & Hact)).
  cbn zeta in Hid, Hv, Hc, Hu.
  set (r := ConfirmSelfClaim_claim cfg now uid s) in *.
  set (rec := mk_vps r.2 uid 2 1 20 "trial" [] (iso now)
                     (Some (unix now + 3 * 24 * 3600))) in *.
  assert (vps r.1 !! r.2 = Some rec) as Hl by (rewrite Hv; apply lookup_insert_eq).
  assert (users (finalize_trial_vps r.2 r.1) !! uid = Some (set_trial_active false u))
    as Hu2.
  { rewrite (finalize_trial_vps_users _ _ rec) by done.
    change (vps_owner rec) with uid.
    rewrite lookup_alter_eq, (ensure_user_record_present _ _ _ Hu). by rewrite Hu. }
  split; [|split; [|split]].
  - rewrite finalize_trial_vps_vps, Hv, delete_insert_eq.
    apply delete_id. rewrite Hid. apply get_next_vps_id_fresh.
  - eexists. split; [exact Hu2|]. done.
  - unfold credits_of at 1. rewrite Hu2. cbn.
    unfold credits_of in Hc at 1. by rewrite Hu in Hc.
  - eapply trial_refuses_claimed; [exact Hu2|done].
Qed.

Lemma trial_not_claimable_after_expiry_witness :
  trial false None "7"
        (finalize_trial_vps (ConfirmSelfClaim_claim default_config at_1000 "7" fresh_state).2
           (ConfirmSelfClaim_claim default_config at_1000 "7" fresh_state).1)
  = (finalize_trial_vps (ConfirmSelfClaim_claim default_config at_1000 "7" fresh_state).2
       (ConfirmSelfClaim_claim default_config at_1000 "7" fresh_state).1, AlreadyClaimed).
Proof.
  destruct (trial_not_claimable_after_expiry default_config at_1000 "7" fresh_state)
    as (_ & _ & _ & H); [discriminate | exact H].
Defined.

(** ** Startup recovery *)

Lemma arm_giveaways_frame (l : list (string * giveaway_rec)) : ∀ s,
  let out := foldl (λ (s : state) (kv : string * giveaway_rec),
                      create_task (FinalizeGiveawayById kv.1) s) s l in
  vps out = vps s ∧ users out = users s ∧ giveaways out = giveaways s
  ∧ purge out = purge s ∧ disk out = disk s.
Proof.
  induction l as [|kv l IH]; intros s; [done|]. cbn [foldl].
  destruct (IH (create_task (FinalizeGiveawayById kv.1) s)) as (-> & -> & -> & -> & ->).
  done.
Qed.

Lemma arm_trials_exact (l : list (string * vps_rec)) : ∀ s,
  let out := foldl (λ (s : state) (kv : string * vps_rec),
                      match vps_trial_expires kv.2 with
                      | Some end_ts =>
                          if decide (end_ts = 0) then s
                          else create_task (ScheduleTrialExpiry kv.1 end_ts) s
                      | None => s
                      end) s l in
  tasks out = tasks s ++ trial_tasks l
  ∧ vps out = vps s ∧ users out = users s ∧ giveaways out = giveaways s
  ∧ purge out = purge s ∧ disk out = disk s.
Proof.
  induction l as [|kv l IH]; intros s.
  { cbn. by rewrite app_nil_r. }
  cbn [foldl]. unfold trial_tasks. cbn [omap list_omap]. fold (trial_tasks l).
  destruct (vps_trial_expires kv.2) as [e|]; [|apply IH].
  destruct (decide (e = 0)); [apply IH|].
  destruct (IH (create_task (ScheduleTrialExpiry kv.1 e) s))
    as (-> & -> & -> & -> & -> & ->).
  cbn. by rewrite <- app_assoc.
Qed.

Lemma on_ready_tasks s :
  tasks (on_ready s)
  = tasks s ++ (FinalizeGiveawayById <$> (map_to_list (giveaways s)).*1)
    ++ trial_tasks (map_to_list (vps s))
  ∧ vps (on_ready s) = vps s ∧ users (on_ready s) = users s
  ∧ giveaways (on_ready s) = giveaways s ∧ purge (on_ready s) = purge s
  ∧ disk (on_ready s) = disk s.
Proof.
  unfold on_ready.
  pose proof (arm_giveaways_tasks (map_to_list (giveaways s)) s) as Ht1.
  destruct (arm_giveaways_frame (map_to_list (giveaways s)) s)
    as (Hv1 & Hu1 & Hg1 & Hp1 & Hd1). cbn zeta in Hv1, Hu1, Hg1, Hp1, Hd1.
  set (s1 := foldl _ s (map_to_list (giveaways s))) in *.
  destruct (arm_trials_exact (map_to_list (vps s1)) s1) as (Ht2 & Hv2 & Hu2 & Hg2 & Hp2 & Hd2).
  cbn zeta in Ht2, Hv2, Hu2, Hg2, Hp2, Hd2.
  rewrite Ht2, Hv2, Hu2, Hg2, Hp2, Hd2, Ht1, Hv1, Hu1, Hg1, Hp1, Hd1.
  by rewrite <- app_assoc.
Qed.

Lemma elem_of_trial_tasks (m : gmap string vps_rec) t :
  t ∈ trial_tasks (map_to_list m)
  ↔ ∃ vid v e, t = ScheduleTrialExpiry vid e ∧ m !! vid = Some v
               ∧ vps_trial_expires v = Some e ∧ e ≠ 0.
Proof.
  unfold trial_tasks. rewrite list_elem_of_omap. split.
  - intros ([vid v] & Hin & Ht). apply elem_of_map_to_list in Hin. cbn in Ht.
    destruct (vps_trial_expires v) as [e|] eqn:E; [|done].
    destruct (decide (e = 0)); [done|]. inversion Ht; subst. eauto 10.
  - intros (vid & v & e & -> & Hv & He & Hne). exists (vid, v).
    split; [by apply elem_of_map_to_list|]. cbn. rewrite He.
    by rewrite decide_False.
Qed.

Lemma trial_tasks_NoDup (l : list (string * vps_rec)) :
  NoDup l.*1 → NoDup (trial_tasks l).
Proof.
  induction l as [|kv l IH]; intros Hnd; [constructor|].
  rewrite fmap_cons in Hnd. apply NoDup_cons in Hnd as [Hk Hnd].
  unfold trial_tasks. cbn [omap list_omap]. fold (trial_tasks l).
  destruct (vps_trial_expires kv.2) as [e|]; [|by apply IH].
  destruct (decide (e = 0)); [by apply IH|].
  apply NoDup_cons. split; [|by apply IH].
  intros Hin. apply Hk. unfold trial_tasks in Hin.
  apply list_elem_of_omap in Hin as (kv' & Hin & Ht).
  destruct (vps_trial_expires kv'.2) as [e'|]; [|done].
  destruct (decide (e' = 0)); [done|]. injection Ht as Hkey He.
  apply list_elem_of_fmap. exists kv'. split; [by symmetry|done].
Qed.

(** Started with no task running, [on_ready] arms one finalization per
    giveaway on record and one expiry per resource that carries a
    deadline, each once, and nothing else: no purge window is armed again,
    and no document is changed or written. *)
Theorem on_ready_arms_each_once s :
  tasks s = [] →
  NoDup (tasks (on_ready s))
  ∧ (∀ gid, FinalizeGiveawayById gid ∈ tasks (on_ready s) ↔ is_Some (giveaways s !! gid))
  ∧ (∀ vid e, ScheduleTrialExpiry vid e ∈ tasks (on_ready s)
              ↔ ∃ v, vps s !! vid = Some v ∧ vps_trial_expires v = Some e ∧ e ≠ 0)
  ∧ (∀ e r, SchedulePurgeExpiry e r ∉ tasks (on_ready s))
  ∧ vps (on_ready s) = vps s ∧ users (on_ready s) = users s
  ∧ giveaways (on_ready s) = giveaways s ∧ purge (on_ready s) = purge s
  ∧ disk (on_ready s) = disk s.
Proof.
  intros Hidle. destruct (on_ready_tasks s) as (Ht & Hrest).
  rewrite Hidle, app_nil_l in Ht. rewrite Ht.
  split; [|split; [|split; [|split; [|done]]]].
  - apply NoDup_app. split; [|split].
    + apply NoDup_fmap_2; [by intros ?? [=]|]. apply NoDup_fst_map_to_list.
    + intros t Hg Htr. apply list_elem_of_fmap in Hg as (gid & -> & _).
      apply elem_of_trial_tasks in Htr as (? & ? & ? & ? & _). done.
    + apply trial_tasks_NoDup, NoDup_fst_map_to_list.
  - intros gid. rewrite elem_of_app. split.
    + intros [Hg|Htr].
      * apply list_elem_of_fmap in Hg as (gid' & [= ->] & Hin).
        apply list_elem_of_fmap in Hin as ([k gw] & -> & Hin).
        apply elem_of_map_to_list in Hin. cbn. eauto.
      * apply elem_of_trial_tasks in Htr as (? & ? & ? & ? & _). done.
    + intros [gw Hgw]. left. apply list_elem_of_fmap. exists gid. split; [done|].
      apply list_elem_of_fmap. exists (gid, gw). split; [done|].
      by apply elem_of_map_to_list.
  - intros vid e. rewrite elem_of_app. split.
    + intros [Hg|Htr].
      * apply list_elem_of_fmap in Hg as (? & ? & _). done.
      * apply elem_of_trial_tasks in Htr as (vid' & v & e' & [= -> ->] & ?). eauto.
    + intros (v & Hv & He & Hne). right. apply elem_of_trial_tasks. eauto 10.
  - intros e r Hin. apply elem_of_app in Hin as [Hg|Htr].
    + apply list_elem_of_fmap in Hg as (? & ? & _). done.
    + apply elem_of_trial_tasks in Htr as (? & ? & ? & ? & _). done.
Qed.

Lemma on_ready_arms_each_once_witness :
  ScheduleTrialExpiry "1" 260200
    ∈ tasks (on_ready (mk_state (vps store_claimed_once) fresh_purge ∅ ∅ [] [] [])).
Proof.
  destruct (on_ready_arms_each_once
              (mk_state (vps store_claimed_once) fresh_purge ∅ ∅ [] [] []))
    as (_ & _ & H & _); [reflexivity|].
  apply H. eexists. split; [reflexivity|]. split; [reflexivity|]. lia.
Defined.

(** ** Status changes *)

(** Suspending a trial resource and unsuspending it again leaves it with
    the status active, not trial, but with its deadline: the expiry is
    armed again at the next start and still removes the resource. For a
    member who is not the owner [unsuspend] does nothing. *)
Theorem status_change_keeps_deadline member vid s v e :
  vps s !! vid = Some v → vps_owner v = PyStr.str member →
  vps_trial_expires v = Some e → e ≠ 0 → tasks s = [] →
  let s1 := select_callback_suspend vid s in
  let s2 := (unsuspend true member vid s1).1 in
  vps s1 !! vid = Some (set_status "suspended" v)
  ∧ vps s2 !! vid = Some (set_status "active" v)
  ∧ ScheduleTrialExpiry vid e ∈ tasks (on_ready s2)
  ∧ vps (finalize_trial_vps vid s2) !! vid = None
  ∧ ∀ other, PyStr.str other ≠ vps_owner v → unsuspend true other vid s1 = (s1, false).
Proof.
  intros Hv Ho He Hne Hidle. cbn zeta.
  assert (select_callback_suspend vid s
          = save_vps_data (with_vps (insert vid (set_status "suspended" v)) s)) as Hs1.
  { unfold select_callback_suspend. by rewrite Hv. }
  rewrite Hs1. set (s1 := save_vps_data _).
  assert (vps s1 !! vid = Some (set_status "suspended" v)) as Hv1
    by (cbn; apply lookup_insert_eq).
  assert (unsuspend true member vid s1
          = (save_vps_data (with_vps (insert vid (set_status "active" v)) s1), true))
    as Hs2.
  { unfold unsuspend. cbn [negb]. rewrite Hv1.
    rewrite decide_False by (cbn; intros H; by apply H). done. }
  rewrite Hs2. cbn [fst]. set (s2 := save_vps_data _).
  assert (vps s2 !! vid = Some (set_status "active" v)) as Hv2
    by (cbn; apply lookup_insert_eq).
  split; [done|]. split; [done|]. split; [|split].
  - destruct (on_ready_tasks s2) as (Ht & _). rewrite Ht.
    apply elem_of_app. right. apply elem_of_app. right.
    apply elem_of_trial_tasks. exists vid, (set_status "active" v), e. done.
  - rewrite finalize_trial_vps_vps. apply lookup_delete_eq.
  - intros other Hother. unfold unsuspend. cbn [negb]. rewrite Hv1.
    rewrite decide_True; [done|]. cbn. congruence.
Qed.

Lemma status_change_keeps_deadline_witness :
  vps (unsuspend true 7 "1"
         (select_callback_suspend "1"
            (mk_state (vps store_claimed_once) fresh_purge ∅ ∅ [] [] []))).1 !! "1"
  = Some (set_status "active"
            (mk_vps "1" "7" 2 1 20 "trial" [] (iso at_1000) (Some 260200))).
Proof.
  destruct (status_change_keeps_deadline 7 "1"
              (mk_state (vps store_claimed_once) fresh_purge ∅ ∅ [] [] [])
              (mk_vps "1" "7" 2 1 20 "trial" [] (iso at_1000) (Some 260200)) 260200)
    as (_ & H & _); [reflexivity | reflexivity | reflexivity | lia | reflexivity |].
  exact H.
Defined.

(** ** Transfers to oneself *)

(** A transfer to oneself that the balance covers is carried out and
    changes no balance at all. *)
Theorem transfer_to_self uid amount s :
  0 < amount → amount ≤ credits_of s uid →
  (transfer uid uid amount s).2 = Done
  ∧ ∀ w, credits_of (transfer uid uid amount s).1 w = credits_of s w.
Proof.
  intros Hpos Hbal.
  destruct (transfer_accepted uid uid amount s Hpos Hbal) as (Hd & _ & _ & Hother).
  split; [done|]. intros w. destruct (decide (w = uid)) as [->|Hne]; [|by apply Hother].
  unfold transfer. rewrite decide_False by lia.
  rewrite decide_False by (rewrite !credits_of_ensure; lia).
  cbn [fst]. unfold save_user_db. rewrite credits_of_save.
  set (s1 := ensure_user_record uid (ensure_user_record uid s)).
  assert (is_Some (users s1 !! uid)) as Hu
    by (apply ensure_user_record_is_Some; by left).
  rewrite credits_of_update_same by (by apply update_user_is_Some).
  rewrite credits_of_update_same by done.
  unfold s1. rewrite !credits_of_ensure. lia.
Qed.

Lemma transfer_to_self_witness :
  credits_of (transfer "7" "7" 10 store_30).1 "7" = credits_of store_30 "7".
Proof.
  destruct (transfer_to_self "7" 10 store_30) as [_ H]; [lia | by vm_compute |].
  apply H.
Defined.

(** ** Where giveaway credits come from *)

(** The reward of a giveaway is new money, and the only change
    finalization makes to the accounts. A run that raises leaves every
    document as it was; this takes a library without [flatten] and a
    party reaction on the message. A run that ends without a winner
    means that no user qualified by the reactions on the message: the
    accounts are as they were and the record is gone. A run that ends
    with a winner means that the library has [flatten] and the winner
    qualified: the record is gone, the sum of all balances has grown by
    the reward, the winner's balance by as much, and every other account,
    the host's included, is as it was. *)
Theorem giveaway_reward_is_minted has_flatten gid reactions rnd s gw :
  giveaways s !! gid = Some gw →
  let s' := (finalize_giveaway_by_id has_flatten gid (Some reactions) rnd s).1 in
  match (finalize_giveaway_by_id has_flatten gid (Some reactions) rnd s).2 with
  | Raised =>
      has_flatten = false ∧ (∃ r, r ∈ reactions ∧ react_emoji r = PARTY) ∧ s' = s
  | Finished None =>
      (∀ w, ¬ qualifies reactions w)
      ∧ users s' = users s
      ∧ giveaways s' = delete gid (giveaways s)
  | Finished (Some w) =>
      has_flatten = true
      ∧ qualifies reactions w
      ∧ giveaways s' = delete gid (giveaways s)
      ∧ total_credits s' = total_credits s + gw_amount gw
      ∧ credits_of s' (PyStr.str (member_id w))
        = credits_of s (PyStr.str (member_id w)) + gw_amount gw
      ∧ (∀ k, k ≠ PyStr.str (member_id w) → users s' !! k = users s !! k)
      ∧ (PyStr.str (gw_host_id gw) ≠ PyStr.str (member_id w) →
         credits_of s' (PyStr.str (gw_host_id gw))
         = credits_of s (PyStr.str (gw_host_id gw)))
  end.
Proof.
  intros Hgw. cbn zeta.
  destruct (participants_of has_flatten reactions) as [ps|] eqn:Hps.
  2:{ unfold finalize_giveaway_by_id. rewrite Hgw, Hps. cbn.
      apply participants_of_None in Hps as [-> Hr]. done. }
  pose proof (participants_of_qualifies _ _ _ Hps) as Hq.
  destruct (finalize_giveaway_by_id_finished has_flatten gid reactions rnd s gw ps Hgw Hps)
    as [Hnil Hwin].
  destruct (decide (ps = [])) as [->|Hne].
  - rewrite Hnil by done. cbn. split; [|done].
    intros w Hw. apply Hq in Hw. by apply elem_of_nil in Hw.
  - destruct (Hwin Hne) as (w & Hin & ->). cbn [fst snd].
    assert (has_flatten = true) as ->.
    { destruct has_flatten; [done|]. exfalso. apply Hne.
      unfold participants_of, users_flatten in Hps.
      destruct (party_reaction reactions); [done|]. by inversion Hps. }
    split; [done|]. split; [by apply Hq|].
    assert (is_Some (users (ensure_user_record (PyStr.str (member_id w)) s)
                       !! PyStr.str (member_id w))) as Hu
      by (apply ensure_user_record_is_Some; by left).
    split; [|split; [|split; [|split]]].
    + cbn. f_equal.
      by destruct (ensure_user_record_frame (PyStr.str (member_id w)) s)
        as (_ & _ & -> & _).
    + change (total_credits (save_giveaways (with_giveaways ?f (save_user_db ?x))))
        with (total_credits x).
      rewrite total_credits_set by done.
      rewrite total_credits_ensure, credits_of_ensure. lia.
    + change (credits_of (save_giveaways (with_giveaways ?f (save_user_db ?x))) ?k)
        with (credits_of x k).
      by rewrite credits_of_update_same.
    + intros k Hk. cbn. by rewrite lookup_alter_ne, ensure_user_record_other.
    + intros Hhost.
      change (credits_of (save_giveaways (with_giveaways ?f (save_user_db ?x))) ?k)
        with (credits_of x k).
      rewrite credits_of_update_other; [apply credits_of_ensure|done].
Qed.

Lemma giveaway_reward_is_minted_witness :
  (finalize_giveaway_by_id false "55" (Some sample_reactions) 0 store_giveaway).1
  = store_giveaway
  ∧ qualifies sample_reactions (mk_member 7 false)
  ∧ total_credits
      (finalize_giveaway_by_id true "55" (Some sample_reactions) 0 store_giveaway).1
    = total_credits store_giveaway + 100.
Proof.
  pose proof (giveaway_reward_is_minted false "55" sample_reactions 0 store_giveaway
                (mk_giveaway 55 2 4600 100 1 1000) eq_refl) as Hf.
  pose proof (giveaway_reward_is_minted true "55" sample_reactions 0 store_giveaway
                (mk_giveaway 55 2 4600 100 1 1000) eq_refl) as Ht.
  split; [exact (proj2 (proj2 Hf))|].
  split; [exact (proj1 (proj2 Ht))|].
  exact (proj1 (proj2 (proj2 (proj2 Ht)))).
Defined.

(** ** Purging and clearing *)

Lemma list_user_vps_empty owner_id s : vps s = ∅ → list_user_vps owner_id s = [].
Proof. intros H. unfold list_user_vps. by rewrite H, map_to_list_empty. Qed.

Lemma elem_of_list_user_vps owner_id s info :
  info ∈ list_user_vps owner_id s
  ↔ ∃ vid, vps s !! vid = Some info ∧ vps_owner info = owner_id.
Proof.
  unfold list_user_vps. rewrite list_elem_of_fmap. split.
  - intros ([vid v] & -> & Hin). apply list_elem_of_filter in Hin as [Ho Hin].
    apply elem_of_map_to_list in Hin. eauto.
  - intros (vid & Hv & Ho). exists (vid, info). split; [done|].
    apply list_elem_of_filter. split; [done|]. by apply elem_of_map_to_list.
Qed.

(** With nothing on the two lists of the purge record, [.purgestart]
    removes every resource there is, whatever protection records exist:
    afterwards no account owns anything, and every id that was on record
    is in the report. *)
Theorem purge_start_without_lists_removes_all author msg_id channel_id now s :
  protected_vps (purge s) = [] → protected_users (purge s) = [] →
  vps (purge_start true author msg_id channel_id now s).1 = ∅
  ∧ (∀ owner_id,
       list_user_vps owner_id (purge_start true author msg_id channel_id now s).1 = [])
  ∧ ∀ vid, vid ∈ (purge_start true author msg_id channel_id now s).2
           ↔ is_Some (vps s !! vid).
Proof.
  intros Hpv Hpu.
  assert (vps (purge_start true author msg_id channel_id now s).1 = ∅) as Hempty.
  { apply map_eq. intros k. rewrite purge_start_lookup, lookup_empty.
    destruct (vps s !! k) as [v|]; [|done].
    unfold keep_at_start. rewrite Hpv, Hpu.
    rewrite !bool_decide_eq_false_2 by apply not_elem_of_nil. done. }
  split; [done|]. split; [intros; by apply list_user_vps_empty|].
  intros vid. split.
  - intros Hin. by apply purge_start_removed_gone in Hin as [? _].
  - intros Hsome. apply purge_start_removed_gone. split; [done|].
    by rewrite Hempty, lookup_empty.
Qed.

Lemma purge_start_without_lists_removes_all_witness :
  vps (purge_start true 1 2 3 at_1000 store_reacted).1 = ∅.
Proof.
  destruct (purge_start_without_lists_removes_all 1 2 3 at_1000 store_reacted)
    as [H _]; [reflexivity | reflexivity | exact H].
Defined.

(** Clearing the user document wipes every balance and every trial flag
    but no resource: an account that had claimed its trial is offered one
    again, while its resources stay on record. Any other argument than
    "users" and "vps" changes nothing. *)
Theorem clear_db_users_forgets_trials uid s :
  let s1 := (clear_db true "users" s).1 in
  vps s1 = vps s
  ∧ total_credits s1 = 0
  ∧ (∀ w, credits_of s1 w = 0)
  ∧ (trial false None uid s1).2 = PromptSelfClaim
  ∧ ∀ which, which ≠ "users" → which ≠ "vps" → clear_db true which s = (s, false).
Proof.
  cbn zeta. unfold clear_db. cbn [negb]. rewrite decide_True by done. cbn [fst].
  split; [done|]. split; [done|]. split; [done|]. split.
  - unfold trial. cbn.
    change (users (ensure_user_record uid ?x) !! uid)
      with (users (ensure_user_record uid x) !! uid).
    unfold ensure_user_record. cbn. rewrite lookup_empty. cbn.
    by rewrite lookup_insert_eq.
  - intros which H1 H2. by rewrite !decide_False.
Qed.
